(** * The project store of [src/context/ProjectContext.tsx]

    A shallow embedding of the React context provider that holds the
    project collection, the active project, the undo and redo stacks and the
    save-state machine, together with the properties its specification
    states about them.

    Conventions of the embedding.
    - The five [useState] cells of [ProjectProvider] are the first five
      fields of the record [Store]; a callback of the provider is a function
      [Store -> Store].  A callback is run against the values of the render
      it was created in, and every callback below is applied to the store
      its caller sees, that is one callback per render.
    - [setX(prev => f prev)] and [setX(v)] are both written as record
      updates, in the order of the source.
    - Every [new Date().toISOString()] of a callback is the argument [now].
    - Calls into [utils/fileSystem] that write are appended to the field
      [backend], a trace of the calls made to the persistence backend.
    - [utils/projectUtils], [utils/stateMachine] and the reading half of
      [utils/fileSystem] are not part of these files: the store is developed
      inside a section that takes them as variables. *)

From Stdlib Require Import ZArith.
From stdpp Require Import base option list strings pretty.

Open Scope string_scope.
Open Scope list_scope.

(** ** Data model ([types/projectTypes]) *)

(** A timestamp is the ISO string of [toISOString]. *)
Definition Timestamp := string.

(** The domain fields of an entity are opaque to the store, which copies
    them wholesale: a JS object is kept as its list of (field, value). *)
Definition Fields := list (string * string).

Record Task := mkTask { task_id : string; task_fields : Fields }.
Record Resource := mkResource { resource_id : string; resource_fields : Fields }.
Record CostRecord := mkCost { cost_id : string; cost_fields : Fields }.
Record Risk := mkRisk { risk_id : string; risk_fields : Fields }.

Record Project := mkProject {
  project_id : string;
  name : string;
  createdAt : Timestamp;
  updatedAt : Timestamp;
  progress : Z;
  tasks : list Task;
  resources : list Resource;
  costs : list CostRecord;
  risks : list Risk;
  milestones : list Fields;
  teams : list Fields;
  budget : Fields
}.

Inductive SaveState := UNTITLED | DIRTY | SAVED.
Inductive AutosaveTimer := active | paused.
Inductive Provenance := manual | file | snapshot.

Record ProjectState := mkProjectState {
  currentState : SaveState;
  hasUnsavedChanges : bool;
  isUntitled : bool;
  lastModified : Timestamp;
  autosaveTimer : AutosaveTimer;
  openedFrom : option Provenance
}.

(** The six kinds of history entry, each with the [targetId] and the
    snapshots the mutators record for it ([beforeState] is [null] for an
    addition, [afterState] is [null] for a deletion). *)
Inductive UndoItem :=
| add_task (targetId : string) (afterState : Task)
| update_task (targetId : string) (beforeState afterState : Task)
| delete_task (targetId : string) (beforeState : Task)
| add_resource (targetId : string) (afterState : Resource)
| update_resource (targetId : string) (beforeState afterState : Resource)
| delete_resource (targetId : string) (beforeState : Resource).

(** The events of the save-state machine, as passed to [transition]. *)
Inductive Event := initialize | edit | save | restoreSnapshotEvent.

(** ** The persistence backend, as the store sees it *)

Record Manifest := mkManifest {
  project_uuid : string;
  file_version : string;
  created_platform : string;
  created_with_version : string;
  created_at : Timestamp;
  updated_at : Timestamp
}.

Record ProjectPackage := mkPackage {
  manifest : Manifest;
  project : Project;
  pkg_tasks : list Task;
  pkg_resources : list Resource;
  pkg_milestones : list Fields;
  pkg_teams : list Fields;
  pkg_budget : Fields;
  attachments : list Fields
}.

Record RecentProject := mkRecent {
  fileName : string;
  filePath : string;
  projectUUID : string;
  isTemporary : bool
}.

Inductive BackendCall :=
| saveAutoSnapshot (pkg : ProjectPackage)
| updateRecentProjects (entry : RecentProject).

(** ** The store *)

Record Store := mkStore {
  projects : list Project;
  currentProject : option Project;
  undoStack : list UndoItem;
  redoStack : list UndoItem;
  projectState : ProjectState;
  backend : list BackendCall
}.

(** ** Array helpers

    The four array expressions the mutators are written with, over any
    entity that carries an [id]. *)

Class HasId (A : Type) := getId : A -> string.
#[global] Instance Task_HasId : HasId Task := task_id.
#[global] Instance Resource_HasId : HasId Resource := resource_id.
#[global] Instance CostRecord_HasId : HasId CostRecord := cost_id.
#[global] Instance Risk_HasId : HasId Risk := risk_id.

Section Arrays.
Context {A : Type} `{HasId A}.

(** [xs.find(x => x.id === i)] *)
Fixpoint findById (i : string) (xs : list A) : option A :=
  match xs with
  | [] => None
  | x :: xs' => if decide (getId x = i) then Some x else findById i xs'
  end.

(** [xs.map(x => x.id === i ? y : x)] *)
Definition replaceById (i : string) (y : A) (xs : list A) : list A :=
  (fun x => if decide (getId x = i) then y else x) <$> xs.

(** [xs.filter(x => x.id !== i)] *)
Definition removeById (i : string) (xs : list A) : list A :=
  filter (fun x => getId x <> i) xs.

(** [[...xs, y]] *)
Definition append (xs : list A) (y : A) : list A := xs ++ [y].

Definition ids (xs : list A) : list string := getId <$> xs.
End Arrays.

(** [xs.slice(0, -1)] and [xs[xs.length - 1]] *)
Definition dropLast {A} (xs : list A) : list A := take (length xs - 1) xs.
Definition lastItem {A} (xs : list A) : option A := last xs.

(** ** Record updates *)

Definition withTasks (p : Project) (ts : list Task) : Project :=
  mkProject (project_id p) (name p) (createdAt p) (updatedAt p) (progress p)
            ts (resources p) (costs p) (risks p) (milestones p) (teams p) (budget p).

Definition withResources (p : Project) (rs : list Resource) : Project :=
  mkProject (project_id p) (name p) (createdAt p) (updatedAt p) (progress p)
            (tasks p) rs (costs p) (risks p) (milestones p) (teams p) (budget p).

Definition withProgress (p : Project) (pr : Z) (now : Timestamp) : Project :=
  mkProject (project_id p) (name p) (createdAt p) now pr
            (tasks p) (resources p) (costs p) (risks p) (milestones p) (teams p) (budget p).

Definition setProjects (f : list Project -> list Project) (s : Store) : Store :=
  mkStore (f (projects s)) (currentProject s) (undoStack s) (redoStack s)
          (projectState s) (backend s).

Definition setCurrentProject (p : Project) (s : Store) : Store :=
  mkStore (projects s) (Some p) (undoStack s) (redoStack s)
          (projectState s) (backend s).

Definition setUndoStack (f : list UndoItem -> list UndoItem) (s : Store) : Store :=
  mkStore (projects s) (currentProject s) (f (undoStack s)) (redoStack s)
          (projectState s) (backend s).

Definition setRedoStack (f : list UndoItem -> list UndoItem) (s : Store) : Store :=
  mkStore (projects s) (currentProject s) (undoStack s) (f (redoStack s))
          (projectState s) (backend s).

Definition setProjectState (f : ProjectState -> ProjectState) (s : Store) : Store :=
  mkStore (projects s) (currentProject s) (undoStack s) (redoStack s)
          (f (projectState s)) (backend s).

Definition callBackend (c : BackendCall) (s : Store) : Store :=
  mkStore (projects s) (currentProject s) (undoStack s) (redoStack s)
          (projectState s) (backend s ++ [c]).

(** The package written by [saveProject] and by the autosave timer. *)
Definition snapshotPackage (now : Timestamp) (p : Project) : ProjectPackage :=
  mkPackage (mkManifest (project_id p) "1.0.0" "Web" "1.0.0" (createdAt p) now)
            p (tasks p) (resources p) (milestones p) (teams p) (budget p) [].

(** A file picked by the user, and the calls to [saveProjectToFile]. *)
Record File := mkFile { file_name : string; file_bytes : string }.

Inductive FileCall :=
| saveProjectToFile (pkg : ProjectPackage) (fileName' : string).

(** ** The provider's callbacks *)

Module ProjectProvider.
Section Store.
(** [calculateProjectProgress] and [createEmptyProject] of
    [utils/projectUtils] (the second reads the clock and draws the new
    id), [transition] of [utils/stateMachine] (which reads the clock for
    [lastModified]), and the answer of [loadSnapshot] of
    [utils/fileSystem]. *)
Variable calculateProjectProgress : list Task -> Z.
Variable createEmptyProject : Timestamp -> option string -> Project.
Variable transition : Timestamp -> ProjectState -> Event -> ProjectState.
Variable loadSnapshot : string -> option ProjectPackage.

(** The project [updateProject] stores: progress recomputed from the
    tasks it is given, [updatedAt] stamped. *)
Definition finalProject (now : Timestamp) (updatedProject : Project) : Project :=
  withProgress updatedProject (calculateProjectProgress (tasks updatedProject)) now.

Definition updateProject (now : Timestamp) (updatedProject : Project) (s : Store) : Store :=
  let final := finalProject now updatedProject in
  let s := setProjects
             (fmap (fun p => if decide (project_id p = project_id final) then final else p)) s in
  let s := setCurrentProject final s in
  setProjectState (fun prev => transition now prev edit) s.

Definition createProject (now : Timestamp) (name' : option string) (s : Store) : Store :=
  let newProject := createEmptyProject now name' in
  let s := setProjects (fun prev => prev ++ [newProject]) s in
  let s := setCurrentProject newProject s in
  let s := setProjectState (fun prev => transition now prev initialize) s in
  let s := setUndoStack (fun _ => []) s in
  let s := setRedoStack (fun _ => []) s in
  callBackend (updateRecentProjects
                 (mkRecent (name newProject) EmptyString (project_id newProject) true)) s.

Definition deleteProject (now : Timestamp) (projectId : string) (s : Store) : Store :=
  let s' := setProjects (filter (fun p => project_id p <> projectId)) s in
  match currentProject s with
  | Some cp =>
      if decide (project_id cp = projectId) then
        match filter (fun p => project_id p <> projectId) (projects s) with
        | r :: _ => setCurrentProject r s'
        | [] => createProject now None s'
        end
      else s'
  | None => s'
  end.

Definition pushUndo (item : UndoItem) (s : Store) : Store :=
  let s := setUndoStack (fun prev => take 49 prev ++ [item]) s in
  setRedoStack (fun _ => []) s.

Definition addTask (now : Timestamp) (task : Task) (s : Store) : Store :=
  match currentProject s with
  | None => s
  | Some cp =>
      let s := pushUndo (add_task (task_id task) task) s in
      updateProject now (withTasks cp (append (tasks cp) task)) s
  end.

Definition updateTask (now : Timestamp) (updatedTask : Task) (s : Store) : Store :=
  match currentProject s with
  | None => s
  | Some cp =>
      let s := match findById (task_id updatedTask) (tasks cp) with
               | Some oldTask =>
                   pushUndo (update_task (task_id updatedTask) oldTask updatedTask) s
               | None => s
               end in
      updateProject now
        (withTasks cp (replaceById (task_id updatedTask) updatedTask (tasks cp))) s
  end.

Definition deleteTask (now : Timestamp) (taskId : string) (s : Store) : Store :=
  match currentProject s with
  | None => s
  | Some cp =>
      let s := match findById taskId (tasks cp) with
               | Some oldTask => pushUndo (delete_task taskId oldTask) s
               | None => s
               end in
      updateProject now (withTasks cp (removeById taskId (tasks cp))) s
  end.

Definition addResource (now : Timestamp) (resource : Resource) (s : Store) : Store :=
  match currentProject s with
  | None => s
  | Some cp =>
      let s := pushUndo (add_resource (resource_id resource) resource) s in
      updateProject now (withResources cp (append (resources cp) resource)) s
  end.

Definition updateResource (now : Timestamp) (updatedResource : Resource) (s : Store) : Store :=
  match currentProject s with
  | None => s
  | Some cp =>
      let s := match findById (resource_id updatedResource) (resources cp) with
               | Some oldResource =>
                   pushUndo (update_resource (resource_id updatedResource)
                                             oldResource updatedResource) s
               | None => s
               end in
      updateProject now
        (withResources cp
           (replaceById (resource_id updatedResource) updatedResource (resources cp))) s
  end.

Definition deleteResource (now : Timestamp) (resourceId : string) (s : Store) : Store :=
  match currentProject s with
  | None => s
  | Some cp =>
      let s := match findById resourceId (resources cp) with
               | Some oldResource => pushUndo (delete_resource resourceId oldResource) s
               | None => s
               end in
      updateProject now (withResources cp (removeById resourceId (resources cp))) s
  end.

Definition saveProject (now : Timestamp) (s : Store) : Store :=
  match currentProject s with
  | None => s
  | Some cp =>
      let s := callBackend (saveAutoSnapshot (snapshotPackage now cp)) s in
      let s := setProjectState (fun prev => transition now prev save) s in
      let s := setUndoStack (fun _ => []) s in
      let s := setRedoStack (fun _ => []) s in
      callBackend (updateRecentProjects
                     (mkRecent (name cp) EmptyString (project_id cp) false)) s
  end.

Definition restoreSnapshot (now : Timestamp) (name' : string) (s : Store) : Store :=
  match loadSnapshot name' with
  | None => s
  | Some pkg =>
      let s := setCurrentProject (project pkg) s in
      let s := setProjects
                 (fun prev =>
                    filter (fun p => project_id p <> project_id (project pkg)) prev
                    ++ [project pkg]) s in
      let s := setProjectState (fun prev => transition now prev restoreSnapshotEvent) s in
      callBackend (updateRecentProjects
                     (mkRecent (name (project pkg)) EmptyString (project_id (project pkg)) false)) s
  end.

(** One firing of the interval installed by the autosave effect.  The
    effect installs the interval only while the timer is active and a
    project is loaded, and re-installs it whenever a value it closes over
    changes. *)
Definition autosaveTick (now : Timestamp) (s : Store) : Store :=
  match autosaveTimer (projectState s), currentProject s with
  | active, Some cp =>
      if hasUnsavedChanges (projectState s)
      then callBackend (saveAutoSnapshot (snapshotPackage now cp)) s
      else s
  | _, _ => s
  end.

(** What [undo] and [redo] hand to [updateProject] for one entry. *)
Definition undoProject (lastAction : UndoItem) (cp : Project) : Project :=
  match lastAction with
  | add_task targetId _ => withTasks cp (removeById targetId (tasks cp))
  | update_task targetId beforeState _ =>
      withTasks cp (replaceById targetId beforeState (tasks cp))
  | delete_task _ beforeState => withTasks cp (append (tasks cp) beforeState)
  | add_resource targetId _ => withResources cp (removeById targetId (resources cp))
  | update_resource targetId beforeState _ =>
      withResources cp (replaceById targetId beforeState (resources cp))
  | delete_resource _ beforeState =>
      withResources cp (append (resources cp) beforeState)
  end.

Definition redoProject (lastAction : UndoItem) (cp : Project) : Project :=
  match lastAction with
  | add_task _ afterState => withTasks cp (append (tasks cp) afterState)
  | update_task targetId _ afterState =>
      withTasks cp (replaceById targetId afterState (tasks cp))
  | delete_task targetId _ => withTasks cp (removeById targetId (tasks cp))
  | add_resource _ afterState => withResources cp (append (resources cp) afterState)
  | update_resource targetId _ afterState =>
      withResources cp (replaceById targetId afterState (resources cp))
  | delete_resource targetId _ =>
      withResources cp (removeById targetId (resources cp))
  end.

Definition undo (now : Timestamp) (s : Store) : Store :=
  match lastItem (undoStack s), currentProject s with
  | Some lastAction, Some cp =>
      let s := setUndoStack dropLast s in
      let s := setRedoStack (fun prev => prev ++ [lastAction]) s in
      updateProject now (undoProject lastAction cp) s
  | _, _ => s
  end.

Definition redo (now : Timestamp) (s : Store) : Store :=
  match lastItem (redoStack s), currentProject s with
  | Some lastAction, Some cp =>
      let s := setRedoStack dropLast s in
      let s := setUndoStack (fun prev => prev ++ [lastAction]) s in
      updateProject now (redoProject lastAction cp) s
  | _, _ => s
  end.

(** *** Sequences of calls *)

Inductive Op :=
| AddTask (task : Task)
| UpdateTask (updatedTask : Task)
| DeleteTask (taskId : string)
| AddResource (resource : Resource)
| UpdateResource (updatedResource : Resource)
| DeleteResource (resourceId : string).

Definition step (now : Timestamp) (op : Op) (s : Store) : Store :=
  match op with
  | AddTask t => addTask now t s
  | UpdateTask t => updateTask now t s
  | DeleteTask i => deleteTask now i s
  | AddResource r => addResource now r s
  | UpdateResource r => updateResource now r s
  | DeleteResource i => deleteResource now i s
  end.

(** A sequence of mutator calls, each with the clock reading of its call. *)
Fixpoint run (ops : list (Timestamp * Op)) (s : Store) : Store :=
  match ops with
  | [] => s
  | (now, op) :: ops' => run ops' (step now op s)
  end.

Fixpoint undos (clock : list Timestamp) (s : Store) : Store :=
  match clock with
  | [] => s
  | now :: clock' => undos clock' (undo now s)
  end.

Fixpoint redos (clock : list Timestamp) (s : Store) : Store :=
  match clock with
  | [] => s
  | now :: clock' => redos clock' (redo now s)
  end.

(** [pushUndo] called once for each entry, in order. *)
Definition pushAll (items : list UndoItem) (s : Store) : Store :=
  foldl (fun s item => pushUndo item s) s items.

(** The active project's [progress] is the calculator's value on its
    own task list. *)
Definition progressIsCurrent (s : Store) : Prop :=
  exists p, currentProject s = Some p
            /\ progress p = calculateProjectProgress (tasks p).

(** [deleteProject] is asked to delete the active project and no other
    project remains: the case in which it calls [createProject]. *)
Definition deletesOnlyProject (projectId : string) (s : Store) : Prop :=
  exists cp, currentProject s = Some cp /\ project_id cp = projectId
             /\ filter (fun p => project_id p <> projectId) (projects s) = [].

(** The entry a mutator call hands to [pushUndo], if it does. *)
Definition recorded (op : Op) (cp : Project) : option UndoItem :=
  match op with
  | AddTask t => Some (add_task (task_id t) t)
  | UpdateTask t =>
      (fun oldTask => update_task (task_id t) oldTask t) <$> findById (task_id t) (tasks cp)
  | DeleteTask i => delete_task i <$> findById i (tasks cp)
  | AddResource r => Some (add_resource (resource_id r) r)
  | UpdateResource r =>
      (fun oldResource => update_resource (resource_id r) oldResource r)
        <$> findById (resource_id r) (resources cp)
  | DeleteResource i => delete_resource i <$> findById i (resources cp)
  end.

(** The project a mutator call hands to [updateProject]. *)
Definition editedProject (op : Op) (cp : Project) : Project :=
  match op with
  | AddTask t => withTasks cp (append (tasks cp) t)
  | UpdateTask t => withTasks cp (replaceById (task_id t) t (tasks cp))
  | DeleteTask i => withTasks cp (removeById i (tasks cp))
  | AddResource r => withResources cp (append (resources cp) r)
  | UpdateResource r =>
      withResources cp (replaceById (resource_id r) r (resources cp))
  | DeleteResource i => withResources cp (removeById i (resources cp))
  end.

(** *** Preconditions on a sequence of calls

    [addsFreshId]: an entity handed to [addTask] or [addResource] carries
    an id that no entity of the collection has ("a caller-assigned unique
    id").  [recordsItem]: the call reaches [pushUndo].  [historyHasRoom]:
    the undo stack holds fewer than 50 entries when the call records. *)
Definition addsFreshId (op : Op) (cp : Project) : bool :=
  match op with
  | AddTask t => bool_decide (task_id t ∉ ids (tasks cp))
  | AddResource r => bool_decide (resource_id r ∉ ids (resources cp))
  | _ => true
  end.

Definition recordsItem (op : Op) (cp : Project) : bool :=
  match op with
  | AddTask _ | AddResource _ => true
  | UpdateTask t => bool_decide (is_Some (findById (task_id t) (tasks cp)))
  | DeleteTask i => bool_decide (is_Some (findById i (tasks cp)))
  | UpdateResource r => bool_decide (is_Some (findById (resource_id r) (resources cp)))
  | DeleteResource i => bool_decide (is_Some (findById i (resources cp)))
  end.

Definition historyHasRoom (op : Op) (s : Store) (cp : Project) : bool :=
  negb (recordsItem op cp) || bool_decide (length (undoStack s) < 50).

Definition opAdmissible (op : Op) (s : Store) : bool :=
  match currentProject s with
  | Some cp => addsFreshId op cp && historyHasRoom op s cp
  | None => true
  end.

Fixpoint runAdmissible (ops : list (Timestamp * Op)) (s : Store) : bool :=
  match ops with
  | [] => true
  | (now, op) :: ops' => opAdmissible op s && runAdmissible ops' (step now op s)
  end.

(** *** Costs and risks *)

Definition withCosts (p : Project) (cs : list CostRecord) : Project :=
  mkProject (project_id p) (name p) (createdAt p) (updatedAt p) (progress p)
            (tasks p) (resources p) cs (risks p) (milestones p) (teams p) (budget p).

Definition withRisks (p : Project) (rs : list Risk) : Project :=
  mkProject (project_id p) (name p) (createdAt p) (updatedAt p) (progress p)
            (tasks p) (resources p) (costs p) rs (milestones p) (teams p) (budget p).

Definition addCost (now : Timestamp) (cost : CostRecord) (s : Store) : Store :=
  match currentProject s with
  | None => s
  | Some cp => updateProject now (withCosts cp (append (costs cp) cost)) s
  end.

Definition updateCost (now : Timestamp) (cost : CostRecord) (s : Store) : Store :=
  match currentProject s with
  | None => s
  | Some cp =>
      updateProject now (withCosts cp (replaceById (cost_id cost) cost (costs cp))) s
  end.

Definition deleteCost (now : Timestamp) (id' : string) (s : Store) : Store :=
  match currentProject s with
  | None => s
  | Some cp => updateProject now (withCosts cp (removeById id' (costs cp))) s
  end.

Definition addRisk (now : Timestamp) (risk : Risk) (s : Store) : Store :=
  match currentProject s with
  | None => s
  | Some cp => updateProject now (withRisks cp (append (risks cp) risk)) s
  end.

Definition updateRisk (now : Timestamp) (risk : Risk) (s : Store) : Store :=
  match currentProject s with
  | None => s
  | Some cp =>
      updateProject now (withRisks cp (replaceById (risk_id risk) risk (risks cp))) s
  end.

Definition deleteRisk (now : Timestamp) (id' : string) (s : Store) : Store :=
  match currentProject s with
  | None => s
  | Some cp => updateProject now (withRisks cp (removeById id' (risks cp))) s
  end.

(** *** Files and start-up

    [createProjectPackage], [loadProjectFromFile] and the answer of
    [getLatestSnapshot] come from [utils/fileSystem].  The three callbacks
    below are [async]: each is embedded as it runs when its [await] is
    answered before any other callback starts, and when the awaited call
    does not fail. *)
Variable createProjectPackage : Project -> ProjectPackage.
Variable loadProjectFromFile : File -> ProjectPackage.
Variable getLatestSnapshot : option string.

(** [exportProjectFile] gives the store it leaves and the calls it makes to
    [saveProjectToFile]. *)
Definition exportProjectFile (now : Timestamp) (fileName' : string) (s : Store)
  : Store * list FileCall :=
  match currentProject s with
  | None => (s, [])
  | Some cp =>
      (setProjectState (fun prev => transition now prev save) s,
       [saveProjectToFile (createProjectPackage cp) fileName'])
  end.

Definition openProjectFile (now : Timestamp) (file' : File) (s : Store) : Store :=
  let pkg := loadProjectFromFile file' in
  let s := setCurrentProject (project pkg) s in
  let s := setProjects
             (fun prev =>
                filter (fun p => project_id p <> project_id (project pkg)) prev
                ++ [project pkg]) s in
  let s := setProjectState (fun prev => transition now prev save) s in
  callBackend (updateRecentProjects
                 (mkRecent (name (project pkg)) (file_name file')
                           (project_id (project pkg)) false)) s.

Definition initializeFromLatestSnapshot (now : Timestamp) (s : Store) : Store :=
  match getLatestSnapshot with
  | Some latest => restoreSnapshot now latest s
  | None => createProject now None s
  end.

(** *** Everything a consumer of the context, or the timer, can do *)

Inductive Action :=
| Mutate (op : Op)
| AddCost (cost : CostRecord)
| UpdateCost (cost : CostRecord)
| DeleteCost (id' : string)
| AddRisk (risk : Risk)
| UpdateRisk (risk : Risk)
| DeleteRisk (id' : string)
| CreateProject (name' : option string)
| UpdateProject (updatedProject : Project)
| DeleteProject (projectId : string)
| SetCurrentProject (p : Project)
| SetProjectState (state : ProjectState)
| SaveProject
| ExportProjectFile (fileName' : string)
| OpenProjectFile (file' : File)
| RestoreSnapshot (name' : string)
| InitializeFromLatestSnapshot
| PushUndo (item : UndoItem)
| Undo
| Redo
| AutosaveTick.

Definition perform (now : Timestamp) (a : Action) (s : Store) : Store :=
  match a with
  | Mutate op => step now op s
  | AddCost c => addCost now c s
  | UpdateCost c => updateCost now c s
  | DeleteCost i => deleteCost now i s
  | AddRisk r => addRisk now r s
  | UpdateRisk r => updateRisk now r s
  | DeleteRisk i => deleteRisk now i s
  | CreateProject n => createProject now n s
  | UpdateProject up => updateProject now up s
  | DeleteProject i => deleteProject now i s
  | SetCurrentProject p => setCurrentProject p s
  | SetProjectState st => setProjectState (fun _ => st) s
  | SaveProject => saveProject now s
  | ExportProjectFile n => fst (exportProjectFile now n s)
  | OpenProjectFile f => openProjectFile now f s
  | RestoreSnapshot n => restoreSnapshot now n s
  | InitializeFromLatestSnapshot => initializeFromLatestSnapshot now s
  | PushUndo item => pushUndo item s
  | Undo => undo now s
  | Redo => redo now s
  | AutosaveTick => autosaveTick now s
  end.

Fixpoint performAll (acts : list (Timestamp * Action)) (s : Store) : Store :=
  match acts with
  | [] => s
  | (now, a) :: acts' => performAll acts' (perform now a s)
  end.

(** The two callbacks that take a project from their caller are given one
    that the list knows: [setCurrentProject] an entry of the list,
    [updateProject] a project under the id of an entry. *)
Definition knowsProject (a : Action) (s : Store) : Prop :=
  match a with
  | SetCurrentProject p => p ∈ projects s
  | UpdateProject up => project_id up ∈ (project_id <$> projects s)
  | _ => True
  end.

Fixpoint knowsProjects (acts : list (Timestamp * Action)) (s : Store) : Prop :=
  match acts with
  | [] => True
  | (now, a) :: acts' => knowsProject a s /\ knowsProjects acts' (perform now a s)
  end.

End Store.
End ProjectProvider.
Import ProjectProvider.

(** ** Observations on the active project *)

Definition activeTasks (s : Store) : list Task :=
  from_option tasks [] (currentProject s).

Definition activeResources (s : Store) : list Resource :=
  from_option resources [] (currentProject s).

(** Two collections hold the same entities: the same ids, and under each id
    the same snapshot. *)
Definition sameEntities {A} `{HasId A} (xs ys : list A) : Prop :=
  (forall i, i ∈ ids xs <-> i ∈ ids ys) /\ (forall i, findById i xs = findById i ys).

(** A store with an active project whose entities have pairwise different
    ids and whose history is empty, as [createProject] and [saveProject]
    leave it. *)
Definition uniqueIds (p : Project) : Prop :=
  NoDup (ids (tasks p)) /\ NoDup (ids (resources p)).

Definition freshHistory (s : Store) : Prop :=
  (exists cp, currentProject s = Some cp /\ uniqueIds cp)
  /\ undoStack s = [] /\ redoStack s = [].

(** Projects that agree on their task and resource collections up to the
    order of the entries. *)
Definition sameCollections (p q : Project) : Prop :=
  tasks p ≡ₚ tasks q /\ resources p ≡ₚ resources q.

(** An entry describes the last change of a project: its target is in the
    collection with the recorded [afterState] (or absent, for a deletion),
    and the snapshots carry the target's id. *)
Definition describesLastChange (it : UndoItem) (p : Project) : Prop :=
  match it with
  | add_task i a => task_id a = i /\ a ∈ tasks p
  | update_task i b a => task_id b = i /\ task_id a = i /\ a ∈ tasks p
  | delete_task i b => task_id b = i /\ i ∉ ids (tasks p)
  | add_resource i a => resource_id a = i /\ a ∈ resources p
  | update_resource i b a => resource_id b = i /\ resource_id a = i /\ a ∈ resources p
  | delete_resource i b => resource_id b = i /\ i ∉ ids (resources p)
  end.

(** A stack of entries, most recent first, is a history of a project: each
    entry describes the last change of the project obtained by reverting the
    entries above it. *)
Fixpoint isHistoryOf (newestFirst : list UndoItem) (p : Project) : Prop :=
  match newestFirst with
  | [] => True
  | it :: older => describesLastChange it p /\ isHistoryOf older (undoProject it p)
  end.

(** The invariant of the history: a project is active, its entities have
    pairwise different ids, and the undo stack is a history of it. *)
Definition consistentHistory (s : Store) : Prop :=
  exists cp, currentProject s = Some cp /\ uniqueIds cp
             /\ isHistoryOf (reverse (undoStack s)) cp.

(** ** The save-state machine ([utils/stateMachine]) *)

Module StateMachine.
(** Modelled from the spec: [transition] of [utils/stateMachine], which is
    not among the source files.  The specification gives its table:
    [initialize] yields UNTITLED with [hasUnsavedChanges=false] and
    [isUntitled=true]; [edit] yields DIRTY with [hasUnsavedChanges=true]
    and [isUntitled] unchanged; [save] yields SAVED with
    [hasUnsavedChanges=false] and [isUntitled=false]; [restoreSnapshot]
    yields SAVED with [hasUnsavedChanges=false], [isUntitled=false] and
    [openedFrom=snapshot]; [lastModified] is refreshed on every
    transition. *)
Definition transition (now : Timestamp) (prev : ProjectState) (ev : Event) : ProjectState :=
  match ev with
  | initialize =>
      mkProjectState UNTITLED false true now (autosaveTimer prev) (openedFrom prev)
  | edit =>
      mkProjectState DIRTY true (isUntitled prev) now (autosaveTimer prev) (openedFrom prev)
  | save =>
      mkProjectState SAVED false false now (autosaveTimer prev) (openedFrom prev)
  | restoreSnapshotEvent =>
      mkProjectState SAVED false false now (autosaveTimer prev) (Some snapshot)
  end.
End StateMachine.

(** ** The earlier revision of the provider

    The source file holds two revisions of [ProjectProvider].  The later one
    (embedded above) delegates every change of [projectState] to
    [transition]; the earlier one writes the new state in place.  Its three
    callbacks that do so are embedded here; its other callbacks are those of
    the later revision, word for word. *)

Module Inline.
Section Inline.
Variable calculateProjectProgress : list Task -> Z.
Variable createEmptyProject : Timestamp -> option string -> Project.

Definition createProject (now : Timestamp) (name' : option string) (s : Store) : Store :=
  let newProject := createEmptyProject now name' in
  let s := setProjects (fun prev => prev ++ [newProject]) s in
  let s := setCurrentProject newProject s in
  let s := setProjectState
             (fun _ => mkProjectState UNTITLED true true now active (Some manual)) s in
  let s := setUndoStack (fun _ => []) s in
  let s := setRedoStack (fun _ => []) s in
  callBackend (updateRecentProjects
                 (mkRecent (name newProject) EmptyString (project_id newProject) true)) s.

Definition updateProject (now : Timestamp) (updatedProject : Project) (s : Store) : Store :=
  let final := finalProject calculateProjectProgress now updatedProject in
  let s := setProjects
             (fmap (fun p => if decide (project_id p = project_id final) then final else p)) s in
  let s := setCurrentProject final s in
  setProjectState
    (fun prev => mkProjectState DIRTY true (isUntitled prev) now
                                (autosaveTimer prev) (openedFrom prev)) s.

Definition saveProject (now : Timestamp) (s : Store) : Store :=
  match currentProject s with
  | None => s
  | Some cp =>
      let s := callBackend (saveAutoSnapshot (snapshotPackage now cp)) s in
      let s := setProjectState
                 (fun prev => mkProjectState SAVED false (isUntitled prev) now
                                             (autosaveTimer prev) (openedFrom prev)) s in
      let s := setUndoStack (fun _ => []) s in
      let s := setRedoStack (fun _ => []) s in
      callBackend (updateRecentProjects
                     (mkRecent (name cp) EmptyString (project_id cp) false)) s
  end.

(** Edits and saves of the earlier revision, in sequence. *)
Inductive Change :=
| Edit (updatedProject : Project)
| Save.

Definition change (now : Timestamp) (c : Change) (s : Store) : Store :=
  match c with
  | Edit up => updateProject now up s
  | Save => saveProject now s
  end.

Fixpoint changes (cs : list (Timestamp * Change)) (s : Store) : Store :=
  match cs with
  | [] => s
  | (now, c) :: cs' => changes cs' (change now c s)
  end.
End Inline.
End Inline.

(** ** Stand-ins for the absent helpers, and sample data *)

Module ProjectUtils.
Definition isCompleted (t : Task) : bool :=
  bool_decide (("status", "completed") ∈ task_fields t).

(** Modelled from the spec: [calculateProjectProgress] of
    [utils/projectUtils], which is not among the source files; a pure
    function from a task list to a completion percentage between 0 and
    100.  Here the share of completed tasks, which gives the 0 and the 50
    of the specification's example. *)
Definition calculateProjectProgress (ts : list Task) : Z :=
  match ts with
  | [] => 0
  | _ => (100 * Z.of_nat (length (filter (fun t => isCompleted t = true) ts))
          / Z.of_nat (length ts))%Z
  end.

(** Modelled from the spec: [createEmptyProject] of [utils/projectUtils],
    which is not among the source files; a new project without entities.
    The id is derived from the clock reading. *)
Definition createEmptyProject (now : Timestamp) (name' : option string) : Project :=
  mkProject ("project-" +:+ now) (default "Untitled" name') now now 0
            [] [] [] [] [] [] [].
End ProjectUtils.

Module Sample.
Definition T1 : Task := mkTask "t1" [("name", "Design")].
Definition T1' : Task := mkTask "t1" [("name", "Build")].
Definition T2 : Task := mkTask "t2" [("name", "Review"); ("status", "completed")].
Definition R1 : Resource := mkResource "r1" [("name", "Alex")].

Definition P : Project :=
  mkProject "p" "Demo" "2024-01-01" "2024-01-01" 0 [] [] [] [] [] [] [].
Definition Q : Project :=
  mkProject "q" "Other" "2024-01-02" "2024-01-02" 0 [T1] [] [] [] [] [] [].

Definition initialState : ProjectState :=
  mkProjectState UNTITLED false true "2024-01-01" active None.

(** The store of the first render, with [P] in the place of the sample
    project. *)
Definition store : Store := mkStore [P] (Some P) [] [] initialState [].

Definition savedStore : Store :=
  mkStore [P] (Some P) [] []
          (mkProjectState SAVED false false "2024-01-01" active None) [].

(** Fifty-one entries, numbered from 1. *)
Definition numbered (n : nat) : UndoItem :=
  add_task (pretty n) (mkTask (pretty n) []).

(** Fifty-one calls with ids of their own: tasks 1 to 49 are added, task 1
    is deleted, task 51 is added. *)
Definition overflowingOps : list (Timestamp * Op) :=
  ((fun n => ("09:00", AddTask (mkTask (pretty n) []))) <$> seq 1 49)
  ++ [("09:50", DeleteTask "1"); ("09:51", AddTask (mkTask "51" []))].

(** A short editing session on [P]. *)
Definition session : list (Timestamp * Op) :=
  [("10:00", AddTask T1); ("10:01", AddTask T2); ("10:02", UpdateTask T1');
   ("10:03", DeleteTask "t2"); ("10:04", AddResource R1);
   ("10:05", DeleteResource "r9")].

(** Two additions under one id. *)
Definition clashingOps : list (Timestamp * Op) :=
  [("10:00", AddTask T1); ("10:01", AddTask T1')].

(** A backend without any snapshot. *)
Definition noSnapshots (name' : string) : option ProjectPackage := None.

Definition C1 : CostRecord := mkCost "c1" [("amount", "100")].
Definition K1 : Risk := mkRisk "k1" [("level", "high")].

(** A package that holds [Q], a backend that has it under the name
    "nightly", and a file that holds it. *)
Definition package : ProjectPackage := snapshotPackage "2024-01-02" Q.
Definition descriptor (p : Project) : ProjectPackage := snapshotPackage (updatedAt p) p.
Definition snapshots (name' : string) : option ProjectPackage :=
  if decide (name' = "nightly") then Some package else None.
Definition upload : File := mkFile "q.mpproj" "...".
Definition reader (file' : File) : ProjectPackage := package.

(** A session that goes through most of the callbacks. *)
Definition tour : list (Timestamp * Action) :=
  [("10:00", Mutate (AddTask T1)); ("10:01", AddCost C1);
   ("10:02", Undo); ("10:03", Redo); ("10:04", RestoreSnapshot "nightly");
   ("10:05", SetCurrentProject Q); ("10:06", Mutate (AddResource R1));
   ("10:07", DeleteProject "q"); ("10:08", SaveProject);
   ("10:09", DeleteProject "p")].

(** A store with work in progress: entities of every kind, an entry on each
    stack. *)
Definition P2 : Project :=
  mkProject "p" "Demo" "2024-01-01" "2024-01-03" 50 [T1; T2] [R1] [C1] [K1] [] [] [].
Definition busy : Store :=
  mkStore [P2; Q] (Some P2) [add_task "t1" T1] [add_task "t2" T2]
          (mkProjectState DIRTY true true "2024-01-03" active None) [].

(** A store without an active project, and one whose undo stack is full. *)
Definition idle : Store := mkStore [Q] None [add_task "t1" T1] [] initialState [].
Definition crowded : Store := pushAll (numbered <$> seq 1 50) store.
End Sample.

(** ** Invariants of the store *)

(** The active project is an entry of the project list. *)
Definition currentInProjects (s : Store) : Prop :=
  forall cp, currentProject s = Some cp -> cp ∈ projects s.

(** The two stacks together hold at most 50 entries. *)
Definition historyBounded (s : Store) : Prop :=
  length (undoStack s) + length (redoStack s) <= 50.

Definition activeCosts (s : Store) : list CostRecord :=
  from_option costs [] (currentProject s).

Definition activeRisks (s : Store) : list Risk :=
  from_option risks [] (currentProject s).

(** The six callbacks on costs and risks. *)
Definition touchesLedger (a : Action) : bool :=
  match a with
  | AddCost _ | UpdateCost _ | DeleteCost _
  | AddRisk _ | UpdateRisk _ | DeleteRisk _ => true
  | _ => false
  end.

(** The callbacks that start with [if (!currentProject) return], and the
    timer, whose interval exists only while a project is loaded. *)
Definition needsActiveProject (a : Action) : bool :=
  match a with
  | Mutate _ | AddCost _ | UpdateCost _ | DeleteCost _
  | AddRisk _ | UpdateRisk _ | DeleteRisk _
  | SaveProject | ExportProjectFile _ | Undo | Redo | AutosaveTick => true
  | _ => false
  end.

(** The callbacks that neither create, delete nor load a project. *)
Definition keepsProjectList (a : Action) : bool :=
  match a with
  | CreateProject _ | DeleteProject _ | OpenProjectFile _
  | RestoreSnapshot _ | InitializeFromLatestSnapshot => false
  | _ => true
  end.

(** The entries of a project list under one id. *)
Definition projectsWithId (i : string) (ps : list Project) : list Project :=
  filter (fun p => project_id p = i) ps.

(** A loaded project has taken its place in a store: it is the active
    project and the one entry of the list under its id, the entries under
    other ids are those of before, and the stacks are those of before. *)
Definition replacedBy (loaded : Project) (s s' : Store) : Prop :=
  currentProject s' = Some loaded
  /\ projectsWithId (project_id loaded) (projects s') = [loaded]
  /\ (forall i, i <> project_id loaded ->
        projectsWithId i (projects s') = projectsWithId i (projects s))
  /\ undoStack s' = undoStack s
  /\ redoStack s' = redoStack s.

(** * Properties *)

(** ** The array helpers *)

Section ArrayFacts.
Context {A : Type} `{HasId A}.
Implicit Types (xs ys : list A) (x y z : A) (i : string).

Lemma findById_Some i xs x : findById i xs = Some x -> x ∈ xs /\ getId x = i.
Proof.
  induction xs as [|a xs IH]; csimpl; [done|].
  destruct (decide (getId a = i)) as [Ha|Ha].
  - intros [= <-]. split; [left | done].
  - intros Hx. destruct (IH Hx). split; [by right | done].
Qed.

Lemma findById_None i xs : findById i xs = None <-> i ∉ ids xs.
Proof.
  unfold ids. induction xs as [|a xs IH]; csimpl.
  - split; [intros _; apply not_elem_of_nil | done].
  - rewrite not_elem_of_cons. destruct (decide (getId a = i)) as [Ha|Ha].
    + split; [done | intros [? _]; congruence].
    + rewrite IH. split; [intros ?; split; [congruence | done] | by intros [_ ?]].
Qed.

Lemma findById_is_Some i xs : is_Some (findById i xs) <-> i ∈ ids xs.
Proof.
  rewrite <- not_eq_None_Some, findById_None.
  split; [apply dec_stable | by intros ? ?].
Qed.

Lemma elem_of_ids x xs : x ∈ xs -> getId x ∈ ids xs.
Proof. intros. unfold ids. by apply list_elem_of_fmap_2. Qed.

Lemma replaceById_ids i y xs : getId y = i -> ids (replaceById i y xs) = ids xs.
Proof.
  intros Hy. unfold ids, replaceById. rewrite <- list_fmap_compose.
  apply list_fmap_ext. intros _ x _. simpl. by case_decide; [congruence|].
Qed.

Lemma replaceById_absent i y xs : i ∉ ids xs -> replaceById i y xs = xs.
Proof.
  unfold ids, replaceById. induction xs as [|a xs IH]; csimpl; [done|].
  rewrite not_elem_of_cons. intros [Ha Hxs].
  rewrite decide_False by congruence. by rewrite IH.
Qed.

Lemma replaceById_present i y xs :
  NoDup (ids xs) -> y ∈ xs -> getId y = i -> replaceById i y xs = xs.
Proof.
  unfold ids, replaceById. induction xs as [|a xs IH]; csimpl; [done|].
  rewrite NoDup_cons, elem_of_cons. intros [Ha Hnd] Hy Hi.
  destruct Hy as [->|Hy].
  - rewrite decide_True by done. f_equal.
    apply (replaceById_absent i a xs). by rewrite <- Hi.
  - rewrite decide_False; [by rewrite IH|].
    intros Hai. apply Ha. rewrite Hai, <- Hi. by apply elem_of_ids.
Qed.

Lemma replaceById_twice i y z xs :
  getId y = i -> replaceById i z (replaceById i y xs) = replaceById i z xs.
Proof.
  intros Hy. unfold replaceById. rewrite <- list_fmap_compose.
  apply list_fmap_ext. intros _ x _. simpl.
  destruct (decide (getId x = i)); [by rewrite decide_True | by rewrite decide_False].
Qed.

Lemma replaceById_elem i y xs : i ∈ ids xs -> y ∈ replaceById i y xs.
Proof.
  unfold ids, replaceById. rewrite list_elem_of_fmap. intros (x & -> & Hx).
  apply list_elem_of_fmap. exists x. by rewrite decide_True.
Qed.

Lemma removeById_cons i a xs :
  removeById i (a :: xs)
  = if decide (getId a = i) then removeById i xs else a :: removeById i xs.
Proof.
  unfold removeById. destruct (decide (getId a = i)).
  - by rewrite filter_cons_False by (by intros ?).
  - by rewrite filter_cons_True.
Qed.

Lemma ids_cons a xs : ids (a :: xs) = getId a :: ids xs.
Proof. done. Qed.

Lemma removeById_absent i xs : i ∉ ids xs -> removeById i xs = xs.
Proof.
  induction xs as [|a xs IH]; [done|].
  rewrite ids_cons, not_elem_of_cons, removeById_cons. intros [Ha Hxs].
  rewrite decide_False by congruence. by rewrite IH.
Qed.

Lemma removeById_ids i xs : i ∉ ids (removeById i xs).
Proof.
  unfold ids, removeById. rewrite list_elem_of_fmap.
  intros (x & -> & Hx). by apply list_elem_of_filter in Hx as [? _].
Qed.

Lemma removeById_append i y xs :
  getId y = i -> removeById i (append xs y) = removeById i xs.
Proof.
  intros Hy. unfold removeById, append. rewrite filter_app.
  rewrite filter_cons_False by (by intros ?). by rewrite filter_nil, app_nil_r.
Qed.

Lemma append_removeById i y xs :
  NoDup (ids xs) -> y ∈ xs -> getId y = i -> append (removeById i xs) y ≡ₚ xs.
Proof.
  induction xs as [|a xs IH].
  - by intros _ ?%elem_of_nil.
  - rewrite ids_cons, NoDup_cons, elem_of_cons, removeById_cons.
    intros [Ha Hnd] Hy Hi. destruct Hy as [->|Hy].
    + rewrite decide_True by done.
      rewrite (removeById_absent i xs) by (by rewrite <- Hi).
      symmetry. apply Permutation_cons_append.
    + rewrite decide_False.
      * unfold append in *. simpl. by rewrite IH.
      * intros Hai. apply Ha. rewrite Hai, <- Hi. by apply elem_of_ids.
Qed.

Lemma removeById_NoDup i xs : NoDup (ids xs) -> NoDup (ids (removeById i xs)).
Proof.
  induction xs as [|a xs IH]; [done|].
  rewrite ids_cons, NoDup_cons, removeById_cons. intros [Ha Hnd].
  destruct (decide (getId a = i)) as [Hai|Hai]; [by apply IH|].
  rewrite ids_cons, NoDup_cons. split; [|by apply IH].
  unfold ids, removeById. rewrite list_elem_of_fmap. intros (x & Hx & Hin).
  apply list_elem_of_filter in Hin as [_ Hin].
  apply Ha. rewrite Hx. by apply elem_of_ids.
Qed.

Lemma append_NoDup y xs :
  NoDup (ids xs) -> getId y ∉ ids xs -> NoDup (ids (append xs y)).
Proof.
  unfold ids, append. intros Hnd Hy. rewrite fmap_app. simpl.
  apply NoDup_app. split; [done|]. split; [|apply NoDup_singleton].
  intros i Hi ->%list_elem_of_singleton. done.
Qed.

#[global] Instance ids_Permutation : Proper ((≡ₚ) ==> (≡ₚ)) (ids (A:=A)).
Proof. intros xs ys Hp. unfold ids. by rewrite Hp. Qed.

#[global] Instance replaceById_Permutation i y :
  Proper ((≡ₚ) ==> (≡ₚ)) (replaceById i y).
Proof. intros xs ys Hp. unfold replaceById. by rewrite Hp. Qed.

#[global] Instance removeById_Permutation i :
  Proper ((≡ₚ) ==> (≡ₚ)) (removeById (A:=A) i).
Proof. intros xs ys Hp. unfold removeById. by rewrite Hp. Qed.

#[global] Instance append_Permutation :
  Proper ((≡ₚ) ==> (=) ==> (≡ₚ)) (append (A:=A)).
Proof. intros xs ys Hp y ? <-. unfold append. by rewrite Hp. Qed.

(** With pairwise different ids, a lookup by id does not depend on the
    order of the entries. *)
Lemma findById_unique i xs x :
  NoDup (ids xs) -> x ∈ xs -> getId x = i -> findById i xs = Some x.
Proof.
  unfold ids. induction xs as [|a xs IH]; csimpl.
  - by intros _ ?%elem_of_nil.
  - rewrite NoDup_cons, elem_of_cons. intros [Ha Hnd] Hx Hi.
    destruct Hx as [->|Hx]; [by rewrite decide_True|].
    rewrite decide_False; [by apply IH|].
    intros Hai. apply Ha. rewrite Hai, <- Hi. by apply elem_of_ids.
Qed.

Lemma sameEntities_Permutation xs ys :
  NoDup (ids xs) -> xs ≡ₚ ys -> sameEntities xs ys.
Proof.
  intros Hnd Hp. split; intros i.
  - by rewrite Hp.
  - destruct (findById i xs) as [x|] eqn:Hx.
    + apply findById_Some in Hx as [Hin Hi]. symmetry.
      apply findById_unique; [by rewrite <- Hp | by rewrite <- Hp | done].
    + symmetry. apply findById_None. rewrite <- Hp. by apply findById_None.
Qed.
End ArrayFacts.

(** ** The undo and redo stacks *)

Lemma pushUndo_undoStack item s :
  undoStack (pushUndo item s) = take 49 (undoStack s) ++ [item].
Proof. done. Qed.

Lemma pushUndo_length item s : length (undoStack (pushUndo item s)) <= 50.
Proof.
  rewrite pushUndo_undoStack, length_app, length_take.
  change (length [item]) with 1. lia.
Qed.

Lemma pushUndo_with_room item s :
  length (undoStack s) < 50 -> undoStack (pushUndo item s) = undoStack s ++ [item].
Proof.
  intros Hlen. rewrite pushUndo_undoStack. by rewrite take_ge by lia.
Qed.

Lemma lastItem_snoc {A} (xs : list A) x : lastItem (xs ++ [x]) = Some x.
Proof. apply last_snoc. Qed.

Lemma dropLast_snoc {A} (xs : list A) x : dropLast (xs ++ [x]) = xs.
Proof.
  unfold dropLast. rewrite length_app. simpl.
  replace (length xs + 1 - 1) with (length xs) by lia.
  by rewrite take_app_length.
Qed.

Lemma lastItem_Some {A} (xs : list A) x :
  lastItem xs = Some x -> xs = dropLast xs ++ [x].
Proof.
  destruct xs as [|a xs _] using rev_ind; [done|].
  rewrite lastItem_snoc, dropLast_snoc. by intros [= ->].
Qed.

(** C2 (as the code behaves).  Fifty-one calls of [pushUndo] on an empty
    history leave fifty entries, and these are the entries 1 to 49 followed
    by entry 51: the call that reaches the cap keeps the 49 oldest entries
    and drops the most recent one, entry 50, so the stack is not the entries
    2 to 51. *)
Theorem pushUndo_51_drops_entry_50 :
  forall f : nat -> UndoItem,
    let stack := undoStack (pushAll (f <$> seq 1 51) Sample.store) in
    length stack = 50
    /\ stack = (f <$> seq 1 49) ++ [f 51]
    /\ undoStack (pushAll (Sample.numbered <$> seq 1 51) Sample.store)
       <> Sample.numbered <$> seq 2 50.
Proof.
  intros f. split; [reflexivity|]. split; [reflexivity|].
  vm_compute. discriminate.
Qed.

(** ** Histories *)

#[global] Instance sameCollections_equiv : Equivalence sameCollections.
Proof.
  split.
  - by intros p.
  - intros p q [Ht Hr]. by split.
  - intros p q r [Ht Hr] [Ht' Hr']. split; by etrans.
Qed.

#[global] Instance undoProject_proper item :
  Proper (sameCollections ==> sameCollections) (undoProject item).
Proof.
  intros p q [Ht Hr]. destruct item; split; simpl; by rewrite ?Ht, ?Hr.
Qed.

#[global] Instance redoProject_proper item :
  Proper (sameCollections ==> sameCollections) (redoProject item).
Proof.
  intros p q [Ht Hr]. destruct item; split; simpl; by rewrite ?Ht, ?Hr.
Qed.

#[global] Instance uniqueIds_proper : Proper (sameCollections ==> iff) uniqueIds.
Proof. intros p q [Ht Hr]. unfold uniqueIds. by rewrite Ht, Hr. Qed.

#[global] Instance describesLastChange_proper item :
  Proper (sameCollections ==> iff) (describesLastChange item).
Proof.
  intros p q [Ht Hr]. destruct item; simpl; by rewrite ?Ht, ?Hr.
Qed.

#[global] Instance isHistoryOf_proper stack :
  Proper (sameCollections ==> iff) (isHistoryOf stack).
Proof.
  induction stack as [|item stack IH]; intros p q Hpq; simpl; [done|].
  rewrite (describesLastChange_proper item p q Hpq).
  by rewrite (IH (undoProject item p) (undoProject item q)) by (by rewrite Hpq).
Qed.

(** Reverting the entry that describes the last change keeps the ids
    pairwise different. *)
Lemma undoProject_uniqueIds item p :
  uniqueIds p -> describesLastChange item p -> uniqueIds (undoProject item p).
Proof.
  intros [Ht Hr]. destruct item; simpl; unfold uniqueIds; simpl.
  - intros _. split; [by apply removeById_NoDup | done].
  - intros (Hb & _ & _). split; [by rewrite replaceById_ids | done].
  - intros [Hb Hi]. split; [apply append_NoDup; [done | by subst] | done].
  - intros _. split; [done | by apply removeById_NoDup].
  - intros (Hb & _ & _). split; [done | by rewrite replaceById_ids].
  - intros [Hb Hi]. split; [done | apply append_NoDup; [done | by subst]].
Qed.

(** Reverting the entry that describes the last change and replaying it
    gives back the collections, up to the order of the entries. *)
Lemma redoProject_undoProject item p :
  uniqueIds p -> describesLastChange item p ->
  sameCollections (redoProject item (undoProject item p)) p.
Proof.
  intros [Ht Hr]. destruct item; simpl; unfold sameCollections; simpl.
  - intros [Ha Hin]. split; [by apply append_removeById | done].
  - intros (Hb & Ha & Hin). split; [|done].
    rewrite replaceById_twice by done. by rewrite replaceById_present.
  - intros [Hb Hi]. split; [|done].
    rewrite removeById_append by done. by rewrite removeById_absent.
  - intros [Ha Hin]. split; [done | by apply append_removeById].
  - intros (Hb & Ha & Hin). split; [done|].
    rewrite replaceById_twice by done. by rewrite replaceById_present.
  - intros [Hb Hi]. split; [done|].
    rewrite removeById_append by done. by rewrite removeById_absent.
Qed.

(** The entry a mutator call records describes the change the call makes,
    provided an added entity brings an id of its own. *)
Lemma recorded_describes op cp item :
  uniqueIds cp -> addsFreshId op cp = true -> recorded op cp = Some item ->
  describesLastChange item (editedProject op cp)
  /\ uniqueIds (editedProject op cp)
  /\ sameCollections (undoProject item (editedProject op cp)) cp.
Proof.
  intros [Ht Hr] Hfresh Hrec. unfold uniqueIds, sameCollections.
  destruct op as [t|t|i|r|r|i]; simpl in *.
  - injection Hrec as <-. apply bool_decide_eq_true in Hfresh. simpl.
    split_and!; try done.
    + apply elem_of_app. right. by left.
    + by apply append_NoDup.
    + rewrite removeById_append by done. by rewrite removeById_absent.
  - apply fmap_Some in Hrec as (old & Hold & ->).
    apply findById_Some in Hold as [Hin Hid]. simpl.
    split_and!; try done.
    + apply replaceById_elem. rewrite <- Hid. by apply elem_of_ids.
    + by rewrite replaceById_ids.
    + rewrite replaceById_twice by done. by rewrite replaceById_present.
  - apply fmap_Some in Hrec as (old & Hold & ->).
    apply findById_Some in Hold as [Hin Hid]. simpl.
    split_and!; try done.
    + apply removeById_ids.
    + by apply removeById_NoDup.
    + by apply append_removeById.
  - injection Hrec as <-. apply bool_decide_eq_true in Hfresh. simpl.
    split_and!; try done.
    + apply elem_of_app. right. by left.
    + by apply append_NoDup.
    + rewrite removeById_append by done. by rewrite removeById_absent.
  - apply fmap_Some in Hrec as (old & Hold & ->).
    apply findById_Some in Hold as [Hin Hid]. simpl.
    split_and!; try done.
    + apply replaceById_elem. rewrite <- Hid. by apply elem_of_ids.
    + by rewrite replaceById_ids.
    + rewrite replaceById_twice by done. by rewrite replaceById_present.
  - apply fmap_Some in Hrec as (old & Hold & ->).
    apply findById_Some in Hold as [Hin Hid]. simpl.
    split_and!; try done.
    + apply removeById_ids.
    + by apply removeById_NoDup.
    + by apply append_removeById.
Qed.

(** A call that records nothing finds no entity under the id and leaves the
    collections as they are. *)
Lemma unrecorded_same op cp :
  recorded op cp = None ->
  tasks (editedProject op cp) = tasks cp
  /\ resources (editedProject op cp) = resources cp.
Proof.
  destruct op as [t|t|i|r|r|i]; simpl; try done;
    rewrite fmap_None, findById_None; intros Hno; split; try done.
  - by apply replaceById_absent.
  - by apply removeById_absent.
  - by apply replaceById_absent.
  - by apply removeById_absent.
Qed.

Section StoreFacts.
Variable calculateProjectProgress : list Task -> Z.
Variable createEmptyProject : Timestamp -> option string -> Project.
Variable transition : Timestamp -> ProjectState -> Event -> ProjectState.
Variable loadSnapshot : string -> option ProjectPackage.

Local Abbreviation finalProject := (finalProject calculateProjectProgress).
Local Abbreviation updateProject := (updateProject calculateProjectProgress transition).
Local Abbreviation createProject := (createProject createEmptyProject transition).
Local Abbreviation deleteProject := (deleteProject createEmptyProject transition).
Local Abbreviation addTask := (addTask calculateProjectProgress transition).
Local Abbreviation updateTask := (updateTask calculateProjectProgress transition).
Local Abbreviation deleteTask := (deleteTask calculateProjectProgress transition).
Local Abbreviation addResource := (addResource calculateProjectProgress transition).
Local Abbreviation updateResource := (updateResource calculateProjectProgress transition).
Local Abbreviation deleteResource := (deleteResource calculateProjectProgress transition).
Local Abbreviation saveProject := (saveProject transition).
Local Abbreviation restoreSnapshot := (restoreSnapshot transition loadSnapshot).
Local Abbreviation undo := (undo calculateProjectProgress transition).
Local Abbreviation redo := (redo calculateProjectProgress transition).
Local Abbreviation step := (step calculateProjectProgress transition).
Local Abbreviation run := (run calculateProjectProgress transition).
Local Abbreviation undos := (undos calculateProjectProgress transition).
Local Abbreviation redos := (redos calculateProjectProgress transition).
Local Abbreviation runAdmissible := (runAdmissible calculateProjectProgress transition).
Local Abbreviation progressIsCurrent := (progressIsCurrent calculateProjectProgress).

(** *** What [updateProject] touches *)

Lemma updateProject_currentProject now up s :
  currentProject (updateProject now up s) = Some (finalProject now up).
Proof. done. Qed.

Lemma updateProject_stacks now up s :
  undoStack (updateProject now up s) = undoStack s
  /\ redoStack (updateProject now up s) = redoStack s.
Proof. done. Qed.

Lemma updateProject_projectState now up s :
  projectState (updateProject now up s) = transition now (projectState s) edit.
Proof. done. Qed.

Lemma finalProject_tasks now up : tasks (finalProject now up) = tasks up.
Proof. done. Qed.

Lemma finalProject_resources now up : resources (finalProject now up) = resources up.
Proof. done. Qed.

Lemma finalProject_progress now up :
  progress (finalProject now up) = calculateProjectProgress (tasks (finalProject now up)).
Proof. done. Qed.

(** *** The shape of a mutator call, of [undo] and of [redo] *)

Lemma step_active now op s cp :
  currentProject s = Some cp ->
  step now op s
  = updateProject now (editedProject op cp)
      (match recorded op cp with Some item => pushUndo item s | None => s end).
Proof.
  intros Hcp. destruct s; simpl in Hcp; subst.
  destruct op; simpl; try reflexivity;
    unfold ProjectProvider.updateTask, ProjectProvider.deleteTask,
      ProjectProvider.updateResource, ProjectProvider.deleteResource; simpl;
    match goal with
    | |- context [@findById ?A ?H ?i ?xs] => by destruct (@findById A H i xs)
    end.
Qed.

Lemma step_inactive now op s : currentProject s = None -> step now op s = s.
Proof. intros Hcp. destruct s; simpl in Hcp; subst. by destruct op. Qed.

Lemma recordsItem_recorded op cp :
  recordsItem op cp = true <-> is_Some (recorded op cp).
Proof.
  destruct op; simpl; rewrite ?bool_decide_eq_true, ?fmap_is_Some; try done;
    by split; [eauto | ].
Qed.

Lemma undo_active now s cp item :
  currentProject s = Some cp -> lastItem (undoStack s) = Some item ->
  undo now s
  = updateProject now (undoProject item cp)
      (setRedoStack (fun prev => prev ++ [item]) (setUndoStack dropLast s)).
Proof.
  intros Hcp Hlast. destruct s; simpl in *; subst.
  change (lastItem undoStack0 = Some item) in Hlast.
  unfold ProjectProvider.undo. simpl. by rewrite Hlast.
Qed.

Lemma redo_active now s cp item :
  currentProject s = Some cp -> lastItem (redoStack s) = Some item ->
  redo now s
  = updateProject now (redoProject item cp)
      (setUndoStack (fun prev => prev ++ [item]) (setRedoStack dropLast s)).
Proof.
  intros Hcp Hlast. destruct s; simpl in *; subst.
  change (lastItem redoStack0 = Some item) in Hlast.
  unfold ProjectProvider.redo. simpl. by rewrite Hlast.
Qed.

Lemma undo_empty now s : undoStack s = [] -> undo now s = s.
Proof. intros Hs. unfold ProjectProvider.undo. by rewrite Hs. Qed.

Lemma redo_empty now s : redoStack s = [] -> redo now s = s.
Proof. intros Hs. unfold ProjectProvider.redo. by rewrite Hs. Qed.

(** C3.  [pushUndo] leaves the redo stack empty, whatever the entry and
    whatever the stacks held.  Consequently, when a mutator call records
    an entry and [undo] follows, the redo stack holds that entry and
    nothing of the forward history there was before: the first [redo]
    replays the fresh edit and empties the redo stack, and any further
    [redo] changes nothing. *)
Theorem pushUndo_discards_forward_history :
  (forall item s, redoStack (pushUndo item s) = [])
  /\ (forall now1 now2 now3 now4 op s cp,
        currentProject s = Some cp -> recordsItem op cp = true ->
        let edited := step now1 op s in
        let undone := undo now2 edited in
        let redone := redo now3 undone in
        exists item,
          recorded op cp = Some item
          /\ redoStack edited = []
          /\ redoStack undone = [item]
          /\ undoStack redone = undoStack edited
          /\ redoStack redone = []
          /\ redo now4 redone = redone).
Proof.
  split; [done|].
  intros now1 now2 now3 now4 op s cp Hcp Hrec edited undone redone.
  apply recordsItem_recorded in Hrec as [item Hitem]. exists item.
  assert (Hedited : edited = updateProject now1 (editedProject op cp) (pushUndo item s)).
  { unfold edited. by rewrite (step_active _ _ _ _ Hcp), Hitem. }
  assert (Hundone : undone
                    = updateProject now2
                        (undoProject item (finalProject now1 (editedProject op cp)))
                        (setRedoStack (fun prev => prev ++ [item])
                                      (setUndoStack dropLast edited))).
  { unfold undone. apply undo_active; rewrite Hedited; [done|].
    simpl. apply lastItem_snoc. }
  assert (Hredo : redoStack undone = [item]) by (by rewrite Hundone, Hedited).
  assert (Hredone : redone
                    = updateProject now3
                        (redoProject item
                           (finalProject now2
                              (undoProject item (finalProject now1 (editedProject op cp)))))
                        (setUndoStack (fun prev => prev ++ [item])
                                      (setRedoStack dropLast undone))).
  { unfold redone. apply redo_active; [by rewrite Hundone | by rewrite Hredo]. }
  assert (Hgone : redoStack redone = []).
  { rewrite Hredone. simpl. by rewrite Hredo. }
  repeat split; try done.
  - by rewrite Hedited.
  - rewrite Hredone, Hundone, Hedited. simpl. by rewrite dropLast_snoc.
  - by apply redo_empty.
Qed.

(** *** Progress *)

Lemma updateProject_progressIsCurrent now up s :
  progressIsCurrent (updateProject now up s).
Proof. by exists (finalProject now up). Qed.

(** C5.  With a project active, every call that changes the task list
    leaves the active project with the task sequence the call computed
    and with [progress] equal to [calculateProjectProgress] of that very
    sequence: [updateProject] for any project it is handed (whatever
    [progress] that project carries), the three task mutators, and [undo]
    and [redo] for the entry they replay. *)
Theorem progress_follows_tasks :
  forall now s cp,
    currentProject s = Some cp ->
    (forall up,
       activeTasks (updateProject now up s) = tasks up
       /\ progressIsCurrent (updateProject now up s))
    /\ (forall task,
          activeTasks (addTask now task s) = append (tasks cp) task
          /\ progressIsCurrent (addTask now task s))
    /\ (forall updatedTask,
          activeTasks (updateTask now updatedTask s)
          = replaceById (task_id updatedTask) updatedTask (tasks cp)
          /\ progressIsCurrent (updateTask now updatedTask s))
    /\ (forall taskId,
          activeTasks (deleteTask now taskId s) = removeById taskId (tasks cp)
          /\ progressIsCurrent (deleteTask now taskId s))
    /\ (forall item,
          lastItem (undoStack s) = Some item ->
          activeTasks (undo now s) = tasks (undoProject item cp)
          /\ progressIsCurrent (undo now s))
    /\ (forall item,
          lastItem (redoStack s) = Some item ->
          activeTasks (redo now s) = tasks (redoProject item cp)
          /\ progressIsCurrent (redo now s)).
Proof.
  intros now s cp Hcp.
  split; [intros up; split; [done | apply updateProject_progressIsCurrent]|].
  split; [intros t; change (addTask now t s) with (step now (AddTask t) s);
          rewrite (step_active _ _ _ _ Hcp);
          split; [done | apply updateProject_progressIsCurrent]|].
  split; [intros t; change (updateTask now t s) with (step now (UpdateTask t) s);
          rewrite (step_active _ _ _ _ Hcp);
          split; [done | apply updateProject_progressIsCurrent]|].
  split; [intros i; change (deleteTask now i s) with (step now (DeleteTask i) s);
          rewrite (step_active _ _ _ _ Hcp);
          split; [done | apply updateProject_progressIsCurrent]|].
  split; intros item Hlast.
  - rewrite (undo_active _ _ _ _ Hcp Hlast).
    split; [done | apply updateProject_progressIsCurrent].
  - rewrite (redo_active _ _ _ _ Hcp Hlast).
    split; [done | apply updateProject_progressIsCurrent].
Qed.

(** *** Persistence *)

(** C8.  When the backend has no package under the name, [restoreSnapshot]
    returns the store it was given: the active project, the project list
    and the save state are those of before (and so are the stacks and the
    calls made to the backend). *)
Theorem restoreSnapshot_not_found :
  forall now name' s,
    loadSnapshot name' = None ->
    restoreSnapshot now name' s = s
    /\ currentProject (restoreSnapshot now name' s) = currentProject s
    /\ projects (restoreSnapshot now name' s) = projects s
    /\ projectState (restoreSnapshot now name' s) = projectState s.
Proof.
  intros now name' s Hnone.
  assert (Hsame : restoreSnapshot now name' s = s).
  { unfold ProjectProvider.restoreSnapshot. by rewrite Hnone. }
  by rewrite Hsame.
Qed.

(** C9.  A firing of the autosave timer leaves the save state, both stacks,
    the project list and the active project as they were; the only thing
    it may do is hand one snapshot package of the active project to
    [saveAutoSnapshot], and it does so only when [hasUnsavedChanges] is
    true at that moment. *)
Theorem autosave_is_silent :
  forall now s,
    let s' := autosaveTick now s in
    projectState s' = projectState s
    /\ undoStack s' = undoStack s
    /\ redoStack s' = redoStack s
    /\ projects s' = projects s
    /\ currentProject s' = currentProject s
    /\ (backend s' = backend s
        \/ hasUnsavedChanges (projectState s) = true
           /\ exists cp, currentProject s = Some cp
                         /\ backend s'
                            = backend s ++ [saveAutoSnapshot (snapshotPackage now cp)])
    /\ (hasUnsavedChanges (projectState s) = false -> s' = s).
Proof.
  intros now s. unfold autosaveTick.
  destruct (autosaveTimer (projectState s)), (currentProject s) as [cp|] eqn:Hcp,
    (hasUnsavedChanges (projectState s)) eqn:Hdirty; simpl;
    repeat split; try done; try (by left).
  right. split; [done|]. by exists cp.
Qed.

(** *** Switching and deleting projects *)

Lemma deleteProject_cases now projectId s :
  (deletesOnlyProject projectId s
   /\ deleteProject now projectId s
      = createProject now None
          (setProjects (filter (fun p => project_id p <> projectId)) s))
  \/ (~ deletesOnlyProject projectId s
      /\ undoStack (deleteProject now projectId s) = undoStack s
      /\ redoStack (deleteProject now projectId s) = redoStack s).
Proof.
  unfold ProjectProvider.deleteProject, deletesOnlyProject.
  destruct (currentProject s) as [cp|] eqn:Hcp.
  - destruct (decide (project_id cp = projectId)) as [Hid|Hid].
    + destruct (filter _ (projects s)) as [|r rest] eqn:Hrest.
      * left. split; [by exists cp | done].
      * right. split; [|done]. by intros (cp' & [= <-] & _ & Hnil).
    + right. split; [|done]. by intros (cp' & [= <-] & ? & _).
  - right. split; [|done]. by intros (cp' & ? & _).
Qed.

(** C10 (as the code behaves).  [setCurrentProject] leaves both stacks as
    they were, and so does [deleteProject] except when it deletes the
    active project and no other project remains: it then calls
    [createProject], which empties both stacks.  Where the stacks are
    kept, an entry recorded against one project is replayed by [undo]
    against whichever project is active then. *)
Theorem switching_keeps_history :
  (forall q s,
     undoStack (setCurrentProject q s) = undoStack s
     /\ redoStack (setCurrentProject q s) = redoStack s)
  /\ (forall now projectId s,
        (~ deletesOnlyProject projectId s ->
         undoStack (deleteProject now projectId s) = undoStack s
         /\ redoStack (deleteProject now projectId s) = redoStack s)
        /\ (deletesOnlyProject projectId s ->
            undoStack (deleteProject now projectId s) = []
            /\ redoStack (deleteProject now projectId s) = []))
  /\ (forall now q s item,
        lastItem (undoStack s) = Some item ->
        currentProject (undo now (setCurrentProject q s))
        = Some (finalProject now (undoProject item q))).
Proof.
  split; [done|]. split.
  - intros now projectId s.
    destruct (deleteProject_cases now projectId s) as [[Honly Heq]|[Hnot Hkept]].
    + split; [done|]. intros _. by rewrite Heq.
    + split; [done|]. done.
  - intros now q s item Hlast.
    by rewrite (undo_active now (setCurrentProject q s) q item).
Qed.

(** *** Undo and redo over the history *)

Lemma finalProject_sameCollections now p : sameCollections (finalProject now p) p.
Proof. by split. Qed.

Lemma freshHistory_consistent s : freshHistory s -> consistentHistory s.
Proof.
  intros [(cp & Hcp & Huniq) [Hundo _]]. exists cp. by rewrite Hundo.
Qed.

Lemma step_consistent now op s :
  consistentHistory s -> opAdmissible op s = true ->
  consistentHistory (step now op s).
Proof.
  intros (cp & Hcp & Huniq & Hhist). unfold opAdmissible, historyHasRoom.
  rewrite Hcp, andb_true_iff. intros [Hfresh Hroom].
  rewrite (step_active _ _ _ _ Hcp).
  exists (finalProject now (editedProject op cp)). split; [done|].
  rewrite (finalProject_sameCollections now (editedProject op cp)).
  destruct (recorded op cp) as [item|] eqn:Hrec.
  - destruct (recorded_describes op cp item Huniq Hfresh Hrec) as (Hdesc & Huniq' & Hback).
    split; [done|].
    assert (Hlen : length (undoStack s) < 50).
    { apply orb_true_iff in Hroom as [Hno|Hlt]; [|by apply bool_decide_eq_true in Hlt].
      apply negb_true_iff in Hno.
      assert (recordsItem op cp = true) by (apply recordsItem_recorded; by rewrite Hrec).
      congruence. }
    change (undoStack (updateProject now (editedProject op cp) (pushUndo item s)))
      with (undoStack (pushUndo item s)).
    rewrite (pushUndo_with_room _ _ Hlen), reverse_snoc. simpl.
    split; [done|]. by rewrite Hback.
  - destruct (unrecorded_same op cp Hrec) as [Ht Hr].
    assert (Hsame : sameCollections (editedProject op cp) cp) by (by split; rewrite ?Ht, ?Hr).
    change (undoStack (updateProject now (editedProject op cp) s)) with (undoStack s).
    split; [by apply (uniqueIds_proper _ _ Hsame) |].
    by apply (isHistoryOf_proper _ _ _ Hsame).
Qed.

Lemma run_consistent ops s :
  consistentHistory s -> runAdmissible ops s = true -> consistentHistory (run ops s).
Proof.
  revert s. induction ops as [|[now op] ops IH]; intros s Hs; simpl; [done|].
  rewrite andb_true_iff. intros [Hop Hops]. apply IH; [|done].
  by apply step_consistent.
Qed.

Lemma redos_snoc clock now s : redos (clock ++ [now]) s = redo now (redos clock s).
Proof. revert s. induction clock as [|t clock IH]; intros s; simpl; [done|]. apply IH. Qed.

(** From a consistent history, [undo] n times and then [redo] n times
    gives back both stacks and, up to the order of the entries, the
    collections of the active project. *)
Lemma undos_redos_consistent uclock :
  forall rclock s,
    consistentHistory s ->
    length uclock = length rclock ->
    length uclock <= length (undoStack s) ->
    let s' := redos rclock (undos uclock s) in
    undoStack s' = undoStack s
    /\ redoStack s' = redoStack s
    /\ exists cp cp', currentProject s = Some cp /\ currentProject s' = Some cp'
                      /\ sameCollections cp' cp.
Proof.
  induction uclock as [|u uclock IH]; intros rclock s Hs Hlen Hdepth.
  - destruct rclock; [|done]. simpl. destruct Hs as (cp & Hcp & _).
    split; [done|]. split; [done|]. by exists cp, cp.
  - destruct rclock as [|r rclock _] using rev_ind; [done|].
    rewrite length_app in Hlen. simpl in Hlen, Hdepth.
    destruct Hs as (cp & Hcp & Huniq & Hhist).
    destruct (undoStack s) as [|item older _] eqn:Hstack using rev_ind;
      [simpl in Hdepth; lia|].
    rewrite length_app in Hdepth. simpl in Hdepth.
    rewrite reverse_snoc in Hhist. destruct Hhist as [Hdesc Hhist].
    assert (Hlast : lastItem (undoStack s) = Some item)
      by (rewrite Hstack; apply lastItem_snoc).
    pose proof (undo_active u s cp item Hcp Hlast) as Hundo.
    set (s1 := undo u s) in *.
    assert (Hstack1 : undoStack s1 = older).
    { rewrite Hundo. simpl. rewrite Hstack. apply dropLast_snoc. }
    assert (Hredo1 : redoStack s1 = redoStack s ++ [item]) by (by rewrite Hundo).
    assert (Hs1 : consistentHistory s1).
    { exists (finalProject u (undoProject item cp)). split; [by rewrite Hundo|].
      rewrite (finalProject_sameCollections u (undoProject item cp)), Hstack1.
      split; [by apply undoProject_uniqueIds | done]. }
    destruct (IH rclock s1 Hs1) as (Hu & Hr & cp1 & cp1' & Hcp1 & Hcp1' & Hsame);
      [lia | rewrite Hstack1; lia |].
    simpl. fold s1. rewrite redos_snoc.
    set (s2 := redos rclock (undos uclock s1)) in *.
    assert (Hlast2 : lastItem (redoStack s2) = Some item)
      by (rewrite Hr, Hredo1; apply lastItem_snoc).
    rewrite (redo_active r s2 cp1' item Hcp1' Hlast2). simpl.
    rewrite Hu, Hstack1, Hr, Hredo1, dropLast_snoc.
    split; [done|]. split; [done|].
    exists cp, (finalProject r (redoProject item cp1')).
    split; [done|]. split; [done|].
    rewrite (finalProject_sameCollections r (redoProject item cp1')), Hsame.
    assert (Hcp1eq : cp1 = finalProject u (undoProject item cp)).
    { rewrite Hundo in Hcp1. simpl in Hcp1. congruence. }
    rewrite Hcp1eq, (finalProject_sameCollections u (undoProject item cp)).
    by apply redoProject_undoProject.
Qed.

(** C1 (as the code behaves).  Start from a store with an active project
    whose entities have pairwise different ids and with empty stacks, and
    run any sequence of add, update and delete calls on tasks and
    resources in which every added entity brings an id that is not in the
    collection and in which no call records an entry while the undo stack
    already holds 50.  Then [undo] N times followed by [redo] N times, N
    at most the depth of the undo stack, gives back the task collection
    and the resource collection with the same ids and the same snapshot
    under each id (the same entries up to their order), and gives back
    both stacks. *)
Theorem undo_redo_roundtrip :
  forall ops uclock rclock s0,
    freshHistory s0 ->
    runAdmissible ops s0 = true ->
    length uclock = length rclock ->
    length uclock <= length (undoStack (run ops s0)) ->
    let s := run ops s0 in
    let s' := redos rclock (undos uclock s) in
    sameEntities (activeTasks s') (activeTasks s)
    /\ sameEntities (activeResources s') (activeResources s)
    /\ activeTasks s' ≡ₚ activeTasks s
    /\ activeResources s' ≡ₚ activeResources s
    /\ undoStack s' = undoStack s
    /\ redoStack s' = redoStack s.
Proof.
  intros ops uclock rclock s0 Hfresh Hops Hlen Hdepth s s'.
  assert (Hs : consistentHistory s)
    by (apply run_consistent; [by apply freshHistory_consistent | done]).
  destruct (undos_redos_consistent uclock rclock s Hs Hlen Hdepth)
    as (Hu & Hr & cp & cp' & Hcp & Hcp' & Hsame).
  fold s' in Hu, Hr, Hcp'.
  destruct Hs as (cp0 & Hcp0 & Huniq & _).
  assert (cp0 = cp) as -> by congruence.
  apply (uniqueIds_proper _ _ Hsame) in Huniq as [Ht Hres].
  destruct Hsame as [Hts Hrs].
  unfold activeTasks, activeResources. rewrite Hcp, Hcp'. simpl.
  split_and!; try done; by apply sameEntities_Permutation.
Qed.

End StoreFacts.

(** ** The store with the save-state machine of the specification *)

Local Abbreviation calc := ProjectUtils.calculateProjectProgress.
Local Abbreviation fresh := ProjectUtils.createEmptyProject.
Local Abbreviation machine := StateMachine.transition.

(** C1, the claim as stated fails.  [addTask] does not look at the id it is
    given: after two additions under the id "t1", one [undo] removes both
    tasks and the [redo] brings back only the second, so the task collection
    after undo and redo is not the one before. *)
Lemma undo_redo_duplicate_id :
  let s := run calc machine Sample.clashingOps Sample.store in
  let s' := redos calc machine ["10:03"] (undos calc machine ["10:02"] s) in
  freshHistory Sample.store
  /\ 1 <= length (undoStack s)
  /\ activeTasks s = [Sample.T1; Sample.T1']
  /\ activeTasks s' = [Sample.T1']
  /\ ~ sameEntities (activeTasks s') (activeTasks s).
Proof.
  split_and!.
  - split; [|done]. exists Sample.P. split; [done|]. split; apply NoDup_nil_2.
  - vm_compute. lia.
  - reflexivity.
  - reflexivity.
  - intros [_ Hfind]. specialize (Hfind "t1"). vm_compute in Hfind. discriminate.
Qed.

(** The cap of [pushUndo] breaks the round trip as well, with ids that are
    all different: the call that reaches the cap loses the entry of the
    deletion of task "1", so fifty [undo]s followed by fifty [redo]s bring
    task "1" back. *)
Lemma undo_redo_after_overflow :
  let s := run calc machine Sample.overflowingOps Sample.store in
  let clock := replicate 50 "11:00" in
  let s' := redos calc machine clock (undos calc machine clock s) in
  length (undoStack s) = 50
  /\ NoDup (ids (activeTasks s))
  /\ ("1" ∉ ids (activeTasks s))
  /\ ("1" ∈ ids (activeTasks s')).
Proof.
  split_and!.
  - by vm_compute.
  - apply (bool_decide_unpack _). by vm_compute.
  - apply (bool_decide_unpack _). by vm_compute.
  - apply (bool_decide_unpack _). by vm_compute.
Qed.

Lemma undo_redo_roundtrip_witness :
  let s := run calc machine Sample.session Sample.store in
  let s' := redos calc machine ["11:03"; "11:04"; "11:05"]
                  (undos calc machine ["11:00"; "11:01"; "11:02"] s) in
  freshHistory Sample.store
  /\ runAdmissible calc machine Sample.session Sample.store = true
  /\ 3 <= length (undoStack s)
  /\ sameEntities (activeTasks s') (activeTasks s)
  /\ sameEntities (activeResources s') (activeResources s)
  /\ activeTasks s' ≡ₚ activeTasks s
  /\ activeResources s' ≡ₚ activeResources s
  /\ undoStack s' = undoStack s
  /\ redoStack s' = redoStack s.
Proof.
  assert (Hfresh : freshHistory Sample.store).
  { split; [|split; reflexivity].
    exists Sample.P. split; [reflexivity|]. split; apply NoDup_nil_2. }
  assert (Hops : runAdmissible calc machine Sample.session Sample.store = true)
    by (vm_compute; reflexivity).
  assert (Hdepth : 3 <= length (undoStack (run calc machine Sample.session Sample.store)))
    by (vm_compute; lia).
  split; [exact Hfresh|]. split; [exact Hops|]. split; [exact Hdepth|].
  exact (undo_redo_roundtrip calc machine Sample.session
           ["11:00"; "11:01"; "11:02"] ["11:03"; "11:04"; "11:05"]
           Sample.store Hfresh Hops eq_refl Hdepth).
Defined.

Lemma pushUndo_discards_forward_history_witness :
  let edited := addTask calc machine "10:00" Sample.T1 Sample.store in
  let undone := undo calc machine "10:01" edited in
  let redone := redo calc machine "10:02" undone in
  currentProject Sample.store = Some Sample.P
  /\ recordsItem (AddTask Sample.T1) Sample.P = true
  /\ exists item,
      recorded (AddTask Sample.T1) Sample.P = Some item
      /\ redoStack edited = []
      /\ redoStack undone = [item]
      /\ undoStack redone = undoStack edited
      /\ redoStack redone = []
      /\ redo calc machine "10:03" redone = redone.
Proof.
  split; [reflexivity|]. split; [reflexivity|].
  exact (proj2 (pushUndo_discards_forward_history calc machine)
           "10:00" "10:01" "10:02" "10:03" (AddTask Sample.T1)
           Sample.store Sample.P eq_refl eq_refl).
Defined.

Lemma progress_follows_tasks_witness :
  currentProject Sample.store = Some Sample.P
  /\ activeTasks (addTask calc machine "10:00" Sample.T2 Sample.store) = [Sample.T2]
  /\ progressIsCurrent calc (addTask calc machine "10:00" Sample.T2 Sample.store).
Proof.
  split; [reflexivity|].
  exact (proj1 (proj2 (progress_follows_tasks calc machine "10:00"
                         Sample.store Sample.P eq_refl)) Sample.T2).
Defined.

Lemma restoreSnapshot_not_found_witness :
  Sample.noSnapshots "missing" = None
  /\ restoreSnapshot machine Sample.noSnapshots "10:00" "missing" Sample.store
     = Sample.store.
Proof.
  split; [reflexivity|].
  exact (proj1 (restoreSnapshot_not_found machine Sample.noSnapshots
                  "10:00" "missing" Sample.store eq_refl)).
Defined.

Lemma autosave_is_silent_witness :
  hasUnsavedChanges (projectState Sample.store) = false
  /\ autosaveTick "10:10" Sample.store = Sample.store.
Proof.
  split; [reflexivity|].
  destruct (autosave_is_silent "10:10" Sample.store)
    as (_ & _ & _ & _ & _ & _ & Hclean).
  exact (Hclean eq_refl).
Defined.

(** *** Deleting what is not there *)

(** C4, the claim as stated fails.  [deleteTask] with an id that no task
    carries records nothing and leaves the tasks alone, and still goes
    through [updateProject]: a saved project becomes DIRTY, with unsaved
    changes. *)
Lemma deleteTask_missing_dirties :
  let s := Sample.savedStore in
  let s' := deleteTask calc machine "10:00" "missing" s in
  currentProject s = Some Sample.P
  /\ findById "missing" (tasks Sample.P) = None
  /\ undoStack s' = undoStack s
  /\ activeTasks s' = activeTasks s
  /\ currentState (projectState s) = SAVED
  /\ currentState (projectState s') = DIRTY
  /\ hasUnsavedChanges (projectState s) = false
  /\ hasUnsavedChanges (projectState s') = true
  /\ ~ (currentState (projectState s') = currentState (projectState s)
        /\ hasUnsavedChanges (projectState s') = hasUnsavedChanges (projectState s)).
Proof.
  split_and!; try reflexivity. intros [Hstate _]. discriminate Hstate.
Qed.

(** C4 (as the code behaves).  With a project active, [deleteTask] and
    [deleteResource] with an id that no entity of the collection carries
    record no entry and leave both stacks and both collections as they
    were, and they do take the [edit] transition: the save state becomes
    what [transition] makes of it, which for the machine of the
    specification is DIRTY with unsaved changes. *)
Theorem delete_missing_takes_edit :
  forall calculateProjectProgress transition now s cp,
    currentProject s = Some cp ->
    (forall taskId,
       taskId ∉ ids (tasks cp) ->
       let s' := deleteTask calculateProjectProgress transition now taskId s in
       undoStack s' = undoStack s /\ redoStack s' = redoStack s
       /\ activeTasks s' = tasks cp /\ activeResources s' = resources cp
       /\ projectState s' = transition now (projectState s) edit)
    /\ (forall resourceId,
          resourceId ∉ ids (resources cp) ->
          let s' := deleteResource calculateProjectProgress transition now resourceId s in
          undoStack s' = undoStack s /\ redoStack s' = redoStack s
          /\ activeTasks s' = tasks cp /\ activeResources s' = resources cp
          /\ projectState s' = transition now (projectState s) edit)
    /\ (forall i,
          let st := projectState (deleteTask calculateProjectProgress machine now i s) in
          let sr := projectState (deleteResource calculateProjectProgress machine now i s) in
          currentState st = DIRTY /\ hasUnsavedChanges st = true
          /\ currentState sr = DIRTY /\ hasUnsavedChanges sr = true).
Proof.
  intros calculateProjectProgress transition now s cp Hcp. split_and!.
  - intros taskId Hno s'. unfold s'.
    change (deleteTask calculateProjectProgress transition now taskId s)
      with (step calculateProjectProgress transition now (DeleteTask taskId) s).
    rewrite (step_active _ _ _ _ _ _ Hcp). simpl.
    apply findById_None in Hno. rewrite Hno. simpl.
    apply findById_None in Hno. unfold activeTasks, activeResources. simpl.
    by rewrite removeById_absent.
  - intros resourceId Hno s'. unfold s'.
    change (deleteResource calculateProjectProgress transition now resourceId s)
      with (step calculateProjectProgress transition now (DeleteResource resourceId) s).
    rewrite (step_active _ _ _ _ _ _ Hcp). simpl.
    apply findById_None in Hno. rewrite Hno. simpl.
    apply findById_None in Hno. unfold activeTasks, activeResources. simpl.
    by rewrite removeById_absent.
  - intros i st sr. unfold st, sr.
    change (deleteTask calculateProjectProgress machine now i s)
      with (step calculateProjectProgress machine now (DeleteTask i) s).
    change (deleteResource calculateProjectProgress machine now i s)
      with (step calculateProjectProgress machine now (DeleteResource i) s).
    by rewrite !(step_active _ _ _ _ _ _ Hcp).
Qed.

Lemma delete_missing_takes_edit_witness :
  let s' := deleteResource calc machine "10:00" "r9" Sample.savedStore in
  currentProject Sample.savedStore = Some Sample.P
  /\ ("r9" ∉ ids (resources Sample.P))
  /\ undoStack s' = [] /\ redoStack s' = []
  /\ activeTasks s' = [] /\ activeResources s' = []
  /\ projectState s' = machine "10:00" (projectState Sample.savedStore) edit.
Proof.
  assert (Hno : "r9" ∉ ids (resources Sample.P)) by apply not_elem_of_nil.
  split; [reflexivity|]. split; [exact Hno|].
  exact (proj1 (proj2 (delete_missing_takes_edit calc machine "10:00"
                         Sample.savedStore Sample.P eq_refl)) "r9" Hno).
Defined.

(** The earlier revision takes the same step without [transition]: its
    [updateProject] writes DIRTY and [hasUnsavedChanges] in place. *)
Lemma Inline_updateProject_dirty calculateProjectProgress now up s :
  let st := projectState (Inline.updateProject calculateProjectProgress now up s) in
  currentState st = DIRTY /\ hasUnsavedChanges st = true.
Proof. done. Qed.

(** *** Saving and creating *)

(** C6.  With a project active, [saveProject] empties both stacks and takes
    the [save] transition, whatever [transition] is; with the machine of the
    specification the save state is then SAVED without unsaved changes, and
    the earlier revision, which writes the state in place, gives the
    same. *)
Theorem saveProject_resets_history :
  forall now s cp,
    currentProject s = Some cp ->
    (forall transition,
       undoStack (saveProject transition now s) = []
       /\ redoStack (saveProject transition now s) = []
       /\ projectState (saveProject transition now s)
          = transition now (projectState s) save)
    /\ (let s' := saveProject machine now s in
        currentState (projectState s') = SAVED
        /\ hasUnsavedChanges (projectState s') = false
        /\ undoStack s' = [] /\ redoStack s' = [])
    /\ (let s' := Inline.saveProject now s in
        currentState (projectState s') = SAVED
        /\ hasUnsavedChanges (projectState s') = false
        /\ undoStack s' = [] /\ redoStack s' = []).
Proof.
  intros now s cp Hcp.
  unfold ProjectProvider.saveProject, Inline.saveProject. rewrite Hcp. done.
Qed.

Lemma saveProject_resets_history_witness :
  let dirty := addTask calc machine "10:00" Sample.T1 Sample.store in
  let s' := saveProject machine "10:05" dirty in
  currentState (projectState dirty) = DIRTY
  /\ undoStack dirty = [add_task "t1" Sample.T1]
  /\ currentState (projectState s') = SAVED
  /\ hasUnsavedChanges (projectState s') = false
  /\ undoStack s' = [] /\ redoStack s' = [].
Proof.
  split; [reflexivity|]. split; [reflexivity|].
  exact (proj1 (proj2 (saveProject_resets_history "10:05"
                         (addTask calc machine "10:00" Sample.T1 Sample.store)
                         _ eq_refl))).
Defined.

(** C7, the claim as stated fails.  The [createProject] that writes the save
    state in place marks the new project as having unsaved changes. *)
Lemma Inline_createProject_unsaved :
  let s' := Inline.createProject fresh "10:00" None Sample.store in
  currentState (projectState s') = UNTITLED
  /\ hasUnsavedChanges (projectState s') = true
  /\ hasUnsavedChanges (projectState s') <> false.
Proof. split_and!; [reflexivity | reflexivity | discriminate]. Qed.

(** C7 (as the code behaves).  Every [createProject] leaves both stacks
    empty.  The revision that delegates to [transition] takes the
    [initialize] transition, which for the machine of the specification
    gives UNTITLED, no unsaved changes and [isUntitled]; the revision that
    writes the state in place gives UNTITLED and [isUntitled] with
    [hasUnsavedChanges] set. *)
Theorem createProject_state :
  forall createEmptyProject now name' s,
    (forall transition,
       let s' := createProject createEmptyProject transition now name' s in
       undoStack s' = [] /\ redoStack s' = []
       /\ projectState s' = transition now (projectState s) initialize)
    /\ (let s' := createProject createEmptyProject machine now name' s in
        currentState (projectState s') = UNTITLED
        /\ hasUnsavedChanges (projectState s') = false
        /\ isUntitled (projectState s') = true
        /\ undoStack s' = [] /\ redoStack s' = [])
    /\ (let s' := Inline.createProject createEmptyProject now name' s in
        currentState (projectState s') = UNTITLED
        /\ hasUnsavedChanges (projectState s') = true
        /\ isUntitled (projectState s') = true
        /\ undoStack s' = [] /\ redoStack s' = []).
Proof. done. Qed.

(** *** Deleting the only project *)

(** C10, the claim as stated fails.  Deleting the active project when it is
    the only one creates a new project, and [createProject] empties the
    stacks: the entry recorded by the addition is gone. *)
Lemma deleteProject_last_clears_history :
  let s := addTask calc machine "10:00" Sample.T1 Sample.store in
  let s' := deleteProject fresh machine "10:01" "p" s in
  undoStack s = [add_task "t1" Sample.T1]
  /\ undoStack s' = []
  /\ undoStack s' <> undoStack s.
Proof. split_and!; [reflexivity | reflexivity | discriminate]. Qed.

Lemma switching_keeps_history_witness :
  let s := addTask calc machine "10:00" Sample.T2 Sample.store in
  let switched := setCurrentProject Sample.Q s in
  undoStack switched = undoStack s
  /\ lastItem (undoStack s) = Some (add_task "t2" Sample.T2)
  /\ currentProject (undo calc machine "10:02" switched)
     = Some (finalProject calc "10:02" (undoProject (add_task "t2" Sample.T2) Sample.Q))
  /\ ~ deletesOnlyProject "q" s
  /\ undoStack (deleteProject fresh machine "10:01" "q" s) = undoStack s
  /\ deletesOnlyProject "p" s
  /\ undoStack (deleteProject fresh machine "10:01" "p" s) = [].
Proof.
  pose proof (switching_keeps_history calc fresh machine) as (Hset & Hdel & Hreplay).
  assert (Hq : ~ deletesOnlyProject "q" (addTask calc machine "10:00" Sample.T2 Sample.store)).
  { intros (cp & Hcp & Hid & _). vm_compute in Hcp. injection Hcp as <-. discriminate Hid. }
  assert (Hp : deletesOnlyProject "p" (addTask calc machine "10:00" Sample.T2 Sample.store)).
  { eexists. split; [reflexivity|]. split; reflexivity. }
  split; [exact (proj1 (Hset Sample.Q _))|].
  split; [reflexivity|].
  split; [exact (Hreplay "10:02" Sample.Q
                  (addTask calc machine "10:00" Sample.T2 Sample.store)
                  (add_task "t2" Sample.T2) eq_refl)|].
  split; [exact Hq|].
  split; [exact (proj1 (proj1 (Hdel "10:01" "q" _) Hq))|].
  split; [exact Hp|].
  exact (proj1 (proj2 (Hdel "10:01" "p" _) Hp)).
Defined.

(** * Further properties of the provider *)

Section ProviderFacts.
Variable calculateProjectProgress : list Task -> Z.
Variable createEmptyProject : Timestamp -> option string -> Project.
Variable transition : Timestamp -> ProjectState -> Event -> ProjectState.
Variable loadSnapshot : string -> option ProjectPackage.
Variable createProjectPackage : Project -> ProjectPackage.
Variable loadProjectFromFile : File -> ProjectPackage.
Variable getLatestSnapshot : option string.

Local Abbreviation finalProject := (finalProject calculateProjectProgress).
Local Abbreviation updateProject := (updateProject calculateProjectProgress transition).
Local Abbreviation createProject := (createProject createEmptyProject transition).
Local Abbreviation deleteProject := (deleteProject createEmptyProject transition).
Local Abbreviation addTask := (addTask calculateProjectProgress transition).
Local Abbreviation updateTask := (updateTask calculateProjectProgress transition).
Local Abbreviation updateResource := (updateResource calculateProjectProgress transition).
Local Abbreviation addCost := (addCost calculateProjectProgress transition).
Local Abbreviation updateCost := (updateCost calculateProjectProgress transition).
Local Abbreviation deleteCost := (deleteCost calculateProjectProgress transition).
Local Abbreviation addRisk := (addRisk calculateProjectProgress transition).
Local Abbreviation updateRisk := (updateRisk calculateProjectProgress transition).
Local Abbreviation deleteRisk := (deleteRisk calculateProjectProgress transition).
Local Abbreviation saveProject := (saveProject transition).
Local Abbreviation exportProjectFile := (exportProjectFile transition createProjectPackage).
Local Abbreviation openProjectFile := (openProjectFile transition loadProjectFromFile).
Local Abbreviation restoreSnapshot := (restoreSnapshot transition loadSnapshot).
Local Abbreviation initializeFromLatestSnapshot :=
  (initializeFromLatestSnapshot createEmptyProject transition loadSnapshot getLatestSnapshot).
Local Abbreviation undo := (undo calculateProjectProgress transition).
Local Abbreviation redo := (redo calculateProjectProgress transition).
Local Abbreviation step := (step calculateProjectProgress transition).
Local Abbreviation perform :=
  (perform calculateProjectProgress createEmptyProject transition loadSnapshot
           createProjectPackage loadProjectFromFile getLatestSnapshot).
Local Abbreviation performAll :=
  (performAll calculateProjectProgress createEmptyProject transition loadSnapshot
              createProjectPackage loadProjectFromFile getLatestSnapshot).
Local Abbreviation knowsProjects :=
  (knowsProjects calculateProjectProgress createEmptyProject transition loadSnapshot
                 createProjectPackage loadProjectFromFile getLatestSnapshot).
Local Abbreviation progressIsCurrent := (progressIsCurrent calculateProjectProgress).

(** ** Without an active project *)

Lemma perform_inactive now a s :
  currentProject s = None -> needsActiveProject a = true -> perform now a s = s.
Proof.
  intros Hcp Ha. destruct a; try discriminate Ha; simpl.
  - by apply step_inactive.
  - unfold ProjectProvider.addCost. by rewrite Hcp.
  - unfold ProjectProvider.updateCost. by rewrite Hcp.
  - unfold ProjectProvider.deleteCost. by rewrite Hcp.
  - unfold ProjectProvider.addRisk. by rewrite Hcp.
  - unfold ProjectProvider.updateRisk. by rewrite Hcp.
  - unfold ProjectProvider.deleteRisk. by rewrite Hcp.
  - unfold ProjectProvider.saveProject. by rewrite Hcp.
  - unfold ProjectProvider.exportProjectFile. by rewrite Hcp.
  - unfold ProjectProvider.undo. rewrite Hcp. by destruct (lastItem (undoStack s)).
  - unfold ProjectProvider.redo. rewrite Hcp. by destruct (lastItem (redoStack s)).
  - unfold autosaveTick. rewrite Hcp. by destruct (autosaveTimer (projectState s)).
Qed.

(** X1.  While no project is active, the twelve mutators, [saveProject],
    [exportProjectFile], [undo], [redo] and the autosave timer leave the
    store as it is, and nothing is handed to the backend or written to a
    file. *)
Theorem no_active_project_nothing_happens :
  forall now s,
    currentProject s = None ->
    (forall a, needsActiveProject a = true -> perform now a s = s)
    /\ (forall fileName', exportProjectFile now fileName' s = (s, [])).
Proof.
  intros now s Hcp. split.
  - intros a Ha. by apply perform_inactive.
  - intros fileName'. unfold ProjectProvider.exportProjectFile. by rewrite Hcp.
Qed.

(** ** The shape of the remaining callbacks *)

(** The project a cost or risk callback hands to [updateProject]. *)
Lemma ledger_active now a s cp :
  currentProject s = Some cp -> touchesLedger a = true ->
  exists up,
    perform now a s = updateProject now up s
    /\ project_id up = project_id cp
    /\ tasks up = tasks cp /\ resources up = resources cp.
Proof.
  intros Hcp Ha. destruct a; try discriminate Ha; simpl.
  - exists (withCosts cp (append (costs cp) cost)).
    unfold ProjectProvider.addCost. by rewrite Hcp.
  - exists (withCosts cp (replaceById (cost_id cost) cost (costs cp))).
    unfold ProjectProvider.updateCost. by rewrite Hcp.
  - exists (withCosts cp (removeById id' (costs cp))).
    unfold ProjectProvider.deleteCost. by rewrite Hcp.
  - exists (withRisks cp (append (risks cp) risk)).
    unfold ProjectProvider.addRisk. by rewrite Hcp.
  - exists (withRisks cp (replaceById (risk_id risk) risk (risks cp))).
    unfold ProjectProvider.updateRisk. by rewrite Hcp.
  - exists (withRisks cp (removeById id' (risks cp))).
    unfold ProjectProvider.deleteRisk. by rewrite Hcp.
Qed.

Lemma editedProject_id op cp : project_id (editedProject op cp) = project_id cp.
Proof. by destruct op. Qed.

Lemma undoProject_id item cp : project_id (undoProject item cp) = project_id cp.
Proof. by destruct item. Qed.

Lemma redoProject_id item cp : project_id (redoProject item cp) = project_id cp.
Proof. by destruct item. Qed.

Lemma updateProject_projects now up s :
  projects (updateProject now up s)
  = (fun p => if decide (project_id p = project_id up) then finalProject now up else p)
      <$> projects s.
Proof. done. Qed.

(** ** The active project is listed *)

Lemma updateProject_listed now up s :
  project_id up ∈ (project_id <$> projects s) ->
  currentInProjects (updateProject now up s).
Proof.
  intros (p & Hid & Hp)%list_elem_of_fmap cp' [= <-].
  rewrite updateProject_projects. apply list_elem_of_fmap.
  exists p. split; [|done]. by rewrite decide_True.
Qed.

Lemma updateProject_of_current_listed now up s cp :
  currentInProjects s -> currentProject s = Some cp ->
  project_id up = project_id cp ->
  currentInProjects (updateProject now up s).
Proof.
  intros Hinv Hcp Hid. apply updateProject_listed.
  apply list_elem_of_fmap. exists cp. split; [done | by apply Hinv].
Qed.

Lemma loaded_listed (p : Project) (ps : list Project) :
  p ∈ filter (fun q => project_id q <> project_id p) ps ++ [p].
Proof. apply elem_of_app. right. by left. Qed.

Lemma perform_listed now a s :
  currentInProjects s -> knowsProject a s -> currentInProjects (perform now a s).
Proof.
  intros Hinv Hknows.
  destruct (currentProject s) as [cp|] eqn:Hcp.
  - destruct (touchesLedger a) eqn:Hledger.
    { destruct (ledger_active now a s cp Hcp Hledger) as (up & -> & Hid & _).
      by apply (updateProject_of_current_listed _ _ _ cp). }
    destruct a; try discriminate Hledger; simpl in *.
    + rewrite (step_active _ _ _ _ _ _ Hcp).
      destruct (recorded op cp);
        by apply (updateProject_of_current_listed _ _ _ cp); rewrite ?editedProject_id.
    + intros cp' [= <-]. simpl. apply elem_of_app. right. by left.
    + by apply updateProject_listed.
    + unfold ProjectProvider.deleteProject. rewrite Hcp.
      destruct (decide (project_id cp = projectId)) as [Hid|Hid].
      * destruct (filter _ (projects s)) as [|r rest] eqn:Hrest.
        -- intros cp' [= <-]. simpl. apply elem_of_app. right. by left.
        -- intros cp' [= <-]. simpl. rewrite Hrest. by left.
      * intros cp' Hcp'. simpl in *. rewrite Hcp in Hcp'. injection Hcp' as <-.
        apply list_elem_of_filter. split; [done | by apply Hinv].
    + by intros cp' [= <-].
    + done.
    + unfold ProjectProvider.saveProject. by rewrite Hcp.
    + unfold ProjectProvider.exportProjectFile. by rewrite Hcp.
    + intros cp' [= <-]. apply loaded_listed.
    + unfold ProjectProvider.restoreSnapshot.
      destruct (loadSnapshot name') as [pkg|]; [|done].
      intros cp' [= <-]. apply loaded_listed.
    + unfold ProjectProvider.initializeFromLatestSnapshot, ProjectProvider.restoreSnapshot.
      destruct getLatestSnapshot as [latest|].
      * destruct (loadSnapshot latest) as [pkg|]; [|done].
        intros cp' [= <-]. apply loaded_listed.
      * intros cp' [= <-]. simpl. apply elem_of_app. right. by left.
    + done.
    + destruct (lastItem (undoStack s)) as [item|] eqn:Hlast.
      * rewrite (undo_active _ _ _ _ _ _ Hcp Hlast).
        by apply (updateProject_of_current_listed _ _ _ cp); rewrite ?undoProject_id.
      * unfold ProjectProvider.undo. by rewrite Hlast.
    + destruct (lastItem (redoStack s)) as [item|] eqn:Hlast.
      * rewrite (redo_active _ _ _ _ _ _ Hcp Hlast).
        by apply (updateProject_of_current_listed _ _ _ cp); rewrite ?redoProject_id.
      * unfold ProjectProvider.redo. by rewrite Hlast.
    + unfold autosaveTick. rewrite Hcp.
      by destruct (autosaveTimer (projectState s)), (hasUnsavedChanges (projectState s)).
  - destruct (needsActiveProject a) eqn:Hneeds.
    + by rewrite (perform_inactive now a s Hcp Hneeds).
    + destruct a; try discriminate Hneeds; simpl in *.
      * intros cp' [= <-]. simpl. apply elem_of_app. right. by left.
      * by apply updateProject_listed.
      * unfold ProjectProvider.deleteProject. rewrite Hcp.
        intros cp' Hcp'. simpl in Hcp'. congruence.
      * by intros cp' [= <-].
      * intros cp' Hcp'. simpl in Hcp'. congruence.
      * intros cp' [= <-]. apply loaded_listed.
      * unfold ProjectProvider.restoreSnapshot.
        destruct (loadSnapshot name') as [pkg|]; [|done].
        intros cp' [= <-]. apply loaded_listed.
      * unfold ProjectProvider.initializeFromLatestSnapshot, ProjectProvider.restoreSnapshot.
        destruct getLatestSnapshot as [latest|].
        -- destruct (loadSnapshot latest) as [pkg|]; [|done].
           intros cp' [= <-]. apply loaded_listed.
        -- intros cp' [= <-]. simpl. apply elem_of_app. right. by left.
      * intros cp' Hcp'. simpl in Hcp'. congruence.
Qed.

(** X2.  The active project stays an entry of the project list through
    every sequence of callbacks and timer firings, as long as the two
    callbacks that take a project from their caller are given one the list
    knows: [setCurrentProject] an entry of the list, [updateProject] a
    project under the id of an entry. *)
Theorem active_project_stays_listed :
  forall acts s,
    currentInProjects s -> knowsProjects acts s ->
    currentInProjects (performAll acts s).
Proof.
  induction acts as [|[now a] acts IH]; intros s Hinv Hknows; simpl; [done|].
  destruct Hknows as [Ha Hacts]. apply IH; [|done]. by apply perform_listed.
Qed.

(** ** The size of the history *)

Lemma perform_bounded now a s : historyBounded s -> historyBounded (perform now a s).
Proof.
  unfold historyBounded. intros Hb.
  assert (Hpush : forall item,
             length (undoStack (pushUndo item s)) + length (redoStack (pushUndo item s)) <= 50).
  { intros item. pose proof (pushUndo_length item s).
    change (redoStack (pushUndo item s)) with (@nil UndoItem).
    change (length (@nil UndoItem)) with 0. lia. }
  destruct (currentProject s) as [cp|] eqn:Hcp.
  - destruct (touchesLedger a) eqn:Hledger.
    { by destruct (ledger_active now a s cp Hcp Hledger) as (up & -> & _). }
    destruct a; try discriminate Hledger; simpl.
    + rewrite (step_active _ _ _ _ _ _ Hcp).
      destruct (recorded op cp) as [item|]; [|done]. exact (Hpush item).
    + simpl; lia.
    + done.
    + unfold ProjectProvider.deleteProject. rewrite Hcp.
      destruct (decide (project_id cp = projectId)); [|done].
      destruct (filter _ (projects s)); [simpl; lia | done].
    + done.
    + done.
    + unfold ProjectProvider.saveProject. rewrite Hcp. simpl; lia.
    + unfold ProjectProvider.exportProjectFile. by rewrite Hcp.
    + done.
    + unfold ProjectProvider.restoreSnapshot. by destruct (loadSnapshot name').
    + unfold ProjectProvider.initializeFromLatestSnapshot, ProjectProvider.restoreSnapshot.
      destruct getLatestSnapshot as [latest|]; [by destruct (loadSnapshot latest)|].
      simpl; lia.
    + exact (Hpush item).
    + destruct (lastItem (undoStack s)) as [item|] eqn:Hlast.
      * rewrite (undo_active _ _ _ _ _ _ Hcp Hlast). simpl.
        rewrite (lastItem_Some _ _ Hlast) in Hb. rewrite !length_app in *. simpl in *. lia.
      * unfold ProjectProvider.undo. by rewrite Hlast.
    + destruct (lastItem (redoStack s)) as [item|] eqn:Hlast.
      * rewrite (redo_active _ _ _ _ _ _ Hcp Hlast). simpl.
        rewrite (lastItem_Some _ _ Hlast) in Hb. rewrite !length_app in *. simpl in *. lia.
      * unfold ProjectProvider.redo. by rewrite Hlast.
    + unfold autosaveTick. rewrite Hcp.
      by destruct (autosaveTimer (projectState s)), (hasUnsavedChanges (projectState s)).
  - destruct (needsActiveProject a) eqn:Hneeds.
    + by rewrite (perform_inactive now a s Hcp Hneeds).
    + destruct a; try discriminate Hneeds; simpl.
      * simpl; lia.
      * done.
      * unfold ProjectProvider.deleteProject. by rewrite Hcp.
      * done.
      * done.
      * done.
      * unfold ProjectProvider.restoreSnapshot. by destruct (loadSnapshot name').
      * unfold ProjectProvider.initializeFromLatestSnapshot, ProjectProvider.restoreSnapshot.
        destruct getLatestSnapshot as [latest|]; [by destruct (loadSnapshot latest)|].
        simpl; lia.
      * exact (Hpush item).
Qed.

(** X3.  The undo stack and the redo stack together never hold more than
    50 entries: [pushUndo] cuts the undo stack and empties the redo stack,
    [undo] and [redo] move one entry from one stack to the other, and
    nothing else adds an entry. *)
Theorem history_stays_bounded :
  forall acts s,
    historyBounded s ->
    historyBounded (performAll acts s)
    /\ length (undoStack (performAll acts s)) <= 50
    /\ length (redoStack (performAll acts s)) <= 50.
Proof.
  assert (Hall : forall acts s, historyBounded s -> historyBounded (performAll acts s)).
  { induction acts as [|[now a] acts IH]; intros s Hb; simpl; [done|].
    apply IH. by apply perform_bounded. }
  intros acts s Hb. specialize (Hall acts s Hb).
  unfold historyBounded in *. lia.
Qed.

Lemma pushUndo_at_cap item s :
  49 <= length (undoStack s) ->
  take 49 (undoStack (pushUndo item s)) = take 49 (undoStack s)
  /\ length (undoStack (pushUndo item s)) = 50.
Proof.
  intros Hlen. rewrite pushUndo_undoStack. split.
  - rewrite take_app_le by (rewrite length_take; lia).
    by rewrite take_take.
  - rewrite length_app, length_take. change (length [item]) with 1. lia.
Qed.

(** X4.  Once the undo stack holds 49 entries, no number of [pushUndo] calls
    changes them: every call keeps the first 49 entries and puts its entry
    in the fiftieth place, replacing the entry of the call before. *)
Theorem pushUndo_never_evicts_the_oldest :
  forall items s,
    49 <= length (undoStack s) ->
    take 49 (undoStack (pushAll items s)) = take 49 (undoStack s)
    /\ (forall item, lastItem items = Some item ->
          undoStack (pushAll items s) = take 49 (undoStack s) ++ [item]).
Proof.
  induction items as [|item items IH] using rev_ind; intros s Hlen.
  - split; [done | by intros item].
  - unfold pushAll in *. rewrite foldl_app. cbn [foldl].
    destruct (IH s Hlen) as [Hold _].
    set (s1 := foldl (fun s0 item0 => pushUndo item0 s0) s items) in *.
    assert (Hlen1 : 49 <= length (undoStack s1)).
    { assert (length (take 49 (undoStack s1)) = 49) as Hl
        by (rewrite Hold, length_take; lia).
      rewrite length_take in Hl. lia. }
    destruct (pushUndo_at_cap item s1 Hlen1) as [Hkeep _]. split.
    + by rewrite Hkeep.
    + intros item'. rewrite lastItem_snoc. intros [= <-].
      by rewrite pushUndo_undoStack, Hold.
Qed.

(** ** One step back, one step forth *)

(** X5.  [undo] right after a recording mutator call gives back the task
    and resource collections of before the call, up to the order of the
    entries, whatever the depth of the undo stack: the entry of the call is
    always the top one.  The ids are pairwise different and an added
    entity brings an id of its own. *)
Theorem undo_reverts_last_edit :
  forall now now' op s cp item,
    currentProject s = Some cp ->
    uniqueIds cp ->
    addsFreshId op cp = true ->
    recorded op cp = Some item ->
    let s' := undo now' (step now op s) in
    (exists cp', currentProject s' = Some cp' /\ sameCollections cp' cp)
    /\ activeTasks s' ≡ₚ tasks cp
    /\ activeResources s' ≡ₚ resources cp
    /\ undoStack s' = take 49 (undoStack s)
    /\ redoStack s' = [item].
Proof.
  intros now now' op s cp item Hcp Huniq Hfresh Hrec s'.
  destruct (recorded_describes op cp item Huniq Hfresh Hrec) as (_ & _ & Hback).
  assert (Hstep : step now op s = updateProject now (editedProject op cp) (pushUndo item s))
    by (by rewrite (step_active _ _ _ _ _ _ Hcp), Hrec).
  assert (Hundo : s' = updateProject now'
                         (undoProject item (finalProject now (editedProject op cp)))
                         (setRedoStack (fun prev => prev ++ [item])
                                       (setUndoStack dropLast (step now op s)))).
  { unfold s'. apply undo_active; rewrite Hstep; [done|]. simpl. apply lastItem_snoc. }
  assert (Hsame : sameCollections
                    (finalProject now'
                       (undoProject item (finalProject now (editedProject op cp)))) cp).
  { split; simpl.
    - change (tasks (undoProject item (finalProject now (editedProject op cp))) ≡ₚ tasks cp).
      etrans; [|apply Hback].
      apply (undoProject_proper item); by split.
    - change (resources (undoProject item (finalProject now (editedProject op cp)))
              ≡ₚ resources cp).
      etrans; [|apply Hback].
      apply (undoProject_proper item); by split. }
  split_and!.
  - eexists. split; [by rewrite Hundo | done].
  - rewrite Hundo. apply Hsame.
  - rewrite Hundo. apply Hsame.
  - rewrite Hundo, Hstep. simpl. by rewrite dropLast_snoc.
  - by rewrite Hundo, Hstep.
Qed.

(** X6.  With a project active and an entry on the undo stack, [undo]
    followed by [redo] gives back both stacks as they were, whatever the
    entries say; and so does [redo] followed by [undo] when the redo stack
    holds an entry. *)
Theorem undo_redo_restore_the_stacks :
  forall now now' s cp,
    currentProject s = Some cp ->
    (undoStack s <> [] ->
     undoStack (redo now' (undo now s)) = undoStack s
     /\ redoStack (redo now' (undo now s)) = redoStack s)
    /\ (redoStack s <> [] ->
        undoStack (undo now' (redo now s)) = undoStack s
        /\ redoStack (undo now' (redo now s)) = redoStack s).
Proof.
  intros now now' s cp Hcp. split; intros Hne.
  - destruct (lastItem (undoStack s)) as [item|] eqn:Hlast;
      [|by apply last_None in Hlast].
    pose proof (undo_active calculateProjectProgress transition now s cp item Hcp Hlast) as Hundo.
    rewrite (redo_active calculateProjectProgress transition now' _ (finalProject now (undoProject item cp)) item);
      [| by rewrite Hundo | rewrite Hundo; apply lastItem_snoc].
    rewrite Hundo. simpl. rewrite dropLast_snoc. split; [|done].
    symmetry. by apply lastItem_Some.
  - destruct (lastItem (redoStack s)) as [item|] eqn:Hlast;
      [|by apply last_None in Hlast].
    pose proof (redo_active calculateProjectProgress transition now s cp item Hcp Hlast) as Hredo.
    rewrite (undo_active calculateProjectProgress transition now' _ (finalProject now (redoProject item cp)) item);
      [| by rewrite Hredo | rewrite Hredo; apply lastItem_snoc].
    rewrite Hredo. simpl. rewrite dropLast_snoc. split; [done|].
    symmetry. by apply lastItem_Some.
Qed.

(** ** Costs and risks *)

(** X7.  With a project active, the six callbacks on costs and risks record
    nothing and leave both stacks as they are (a pending redo survives
    them); they leave tasks and resources alone, go through
    [updateProject], so the save state takes the [edit] transition and
    [progress] is recomputed, and hand nothing to the backend. *)
Theorem costs_and_risks_bypass_history :
  forall now a s cp,
    currentProject s = Some cp ->
    touchesLedger a = true ->
    let s' := perform now a s in
    undoStack s' = undoStack s
    /\ redoStack s' = redoStack s
    /\ activeTasks s' = tasks cp
    /\ activeResources s' = resources cp
    /\ progressIsCurrent s'
    /\ projectState s' = transition now (projectState s) edit
    /\ backend s' = backend s.
Proof.
  intros now a s cp Hcp Ha s'. unfold s'.
  destruct (ledger_active now a s cp Hcp Ha) as (up & -> & _ & Ht & Hr).
  split_and!; try done. by exists (finalProject now up).
Qed.

(** X8.  [undo] and [redo] never change the costs and the risks of the
    active project: an entry is replayed into the project as it is now, so
    cost and risk edits made since the entry was recorded stay. *)
Theorem undo_redo_keep_costs_and_risks :
  forall now s,
    activeCosts (undo now s) = activeCosts s
    /\ activeRisks (undo now s) = activeRisks s
    /\ activeCosts (redo now s) = activeCosts s
    /\ activeRisks (redo now s) = activeRisks s.
Proof.
  intros now s.
  assert (Hu : forall item cp, costs (undoProject item cp) = costs cp
                               /\ risks (undoProject item cp) = risks cp)
    by (by intros []).
  assert (Hr : forall item cp, costs (redoProject item cp) = costs cp
                               /\ risks (redoProject item cp) = risks cp)
    by (by intros []).
  destruct (currentProject s) as [cp|] eqn:Hcp.
  - unfold activeCosts, activeRisks. split_and!.
    + destruct (lastItem (undoStack s)) as [item|] eqn:Hlast.
      * rewrite (undo_active _ _ _ _ _ _ Hcp Hlast), Hcp. simpl. apply Hu.
      * unfold ProjectProvider.undo. by rewrite Hlast.
    + destruct (lastItem (undoStack s)) as [item|] eqn:Hlast.
      * rewrite (undo_active _ _ _ _ _ _ Hcp Hlast), Hcp. simpl. apply Hu.
      * unfold ProjectProvider.undo. by rewrite Hlast.
    + destruct (lastItem (redoStack s)) as [item|] eqn:Hlast.
      * rewrite (redo_active _ _ _ _ _ _ Hcp Hlast), Hcp. simpl. apply Hr.
      * unfold ProjectProvider.redo. by rewrite Hlast.
    + destruct (lastItem (redoStack s)) as [item|] eqn:Hlast.
      * rewrite (redo_active _ _ _ _ _ _ Hcp Hlast), Hcp. simpl. apply Hr.
      * unfold ProjectProvider.redo. by rewrite Hlast.
  - pose proof (perform_inactive now Undo s Hcp eq_refl) as Hundo.
    pose proof (perform_inactive now Redo s Hcp eq_refl) as Hredo.
    simpl in Hundo, Hredo. by rewrite Hundo, Hredo.
Qed.

Lemma addCost_active now c s cp :
  currentProject s = Some cp ->
  addCost now c s = updateProject now (withCosts cp (append (costs cp) c)) s.
Proof. intros Hcp. unfold ProjectProvider.addCost. by rewrite Hcp. Qed.

Lemma deleteCost_active now i s cp :
  currentProject s = Some cp ->
  deleteCost now i s = updateProject now (withCosts cp (removeById i (costs cp))) s.
Proof. intros Hcp. unfold ProjectProvider.deleteCost. by rewrite Hcp. Qed.

Lemma updateCost_active now c s cp :
  currentProject s = Some cp ->
  updateCost now c s
  = updateProject now (withCosts cp (replaceById (cost_id c) c (costs cp))) s.
Proof. intros Hcp. unfold ProjectProvider.updateCost. by rewrite Hcp. Qed.

Lemma addRisk_active now r s cp :
  currentProject s = Some cp ->
  addRisk now r s = updateProject now (withRisks cp (append (risks cp) r)) s.
Proof. intros Hcp. unfold ProjectProvider.addRisk. by rewrite Hcp. Qed.

Lemma deleteRisk_active now i s cp :
  currentProject s = Some cp ->
  deleteRisk now i s = updateProject now (withRisks cp (removeById i (risks cp))) s.
Proof. intros Hcp. unfold ProjectProvider.deleteRisk. by rewrite Hcp. Qed.

Lemma updateRisk_active now r s cp :
  currentProject s = Some cp ->
  updateRisk now r s
  = updateProject now (withRisks cp (replaceById (risk_id r) r (risks cp))) s.
Proof. intros Hcp. unfold ProjectProvider.updateRisk. by rewrite Hcp. Qed.

(** X9.  With a project active: adding a cost (a risk) under an id that no
    cost (no risk) of the project carries and then deleting that id gives
    back the list of before; and updating or deleting under an id that none
    carries leaves the list as it is. *)
Theorem cost_and_risk_lists :
  forall now now' s cp,
    currentProject s = Some cp ->
    (forall c, cost_id c ∉ ids (costs cp) ->
       activeCosts (deleteCost now' (cost_id c) (addCost now c s)) = costs cp)
    /\ (forall r, risk_id r ∉ ids (risks cp) ->
          activeRisks (deleteRisk now' (risk_id r) (addRisk now r s)) = risks cp)
    /\ (forall c, cost_id c ∉ ids (costs cp) ->
          activeCosts (updateCost now c s) = costs cp
          /\ activeCosts (deleteCost now (cost_id c) s) = costs cp)
    /\ (forall r, risk_id r ∉ ids (risks cp) ->
          activeRisks (updateRisk now r s) = risks cp
          /\ activeRisks (deleteRisk now (risk_id r) s) = risks cp).
Proof.
  intros now now' s cp Hcp. split_and!.
  - intros c Hc. rewrite (addCost_active _ _ _ _ Hcp).
    rewrite (deleteCost_active now' _ _ (finalProject now (withCosts cp (append (costs cp) c))))
      by done.
    unfold activeCosts. simpl.
    rewrite removeById_append by done. by apply removeById_absent.
  - intros r Hr. rewrite (addRisk_active _ _ _ _ Hcp).
    rewrite (deleteRisk_active now' _ _ (finalProject now (withRisks cp (append (risks cp) r))))
      by done.
    unfold activeRisks. simpl.
    rewrite removeById_append by done. by apply removeById_absent.
  - intros c Hc. rewrite (updateCost_active _ _ _ _ Hcp), (deleteCost_active _ _ _ _ Hcp).
    unfold activeCosts. simpl.
    split; [by apply replaceById_absent | by apply removeById_absent].
  - intros r Hr. rewrite (updateRisk_active _ _ _ _ Hcp), (deleteRisk_active _ _ _ _ Hcp).
    unfold activeRisks. simpl.
    split; [by apply replaceById_absent | by apply removeById_absent].
Qed.

(** ** Loading a project *)

Lemma projectsWithId_loaded (loaded : Project) (ps : list Project) :
  projectsWithId (project_id loaded)
    (filter (fun p => project_id p <> project_id loaded) ps ++ [loaded]) = [loaded].
Proof.
  unfold projectsWithId. rewrite filter_app, filter_cons_True by done.
  rewrite filter_nil. replace (filter _ (filter _ ps)) with (@nil Project); [done|].
  symmetry. induction ps as [|p ps IH]; [done|].
  destruct (decide (project_id p = project_id loaded)) as [Hp|Hp].
  - by rewrite (filter_cons_False _ p ps) by (by intros ?).
  - rewrite (filter_cons_True _ p ps) by done. by rewrite filter_cons_False.
Qed.

Lemma projectsWithId_others (loaded : Project) (ps : list Project) i :
  i <> project_id loaded ->
  projectsWithId i (filter (fun p => project_id p <> project_id loaded) ps ++ [loaded])
  = projectsWithId i ps.
Proof.
  intros Hi. unfold projectsWithId. rewrite filter_app.
  rewrite (filter_cons_False _ loaded []) by (by intros ?). rewrite filter_nil, app_nil_r.
  induction ps as [|p ps IH]; [done|].
  destruct (decide (project_id p = project_id loaded)) as [Hp|Hp].
  - rewrite (filter_cons_False _ p ps) by (by intros ?).
    rewrite (filter_cons_False _ p ps) by congruence. done.
  - rewrite (filter_cons_True (fun p => project_id p <> project_id loaded) p ps) by done.
    destruct (decide (project_id p = i)) as [Hpi|Hpi].
    + rewrite !filter_cons_True by done. by rewrite IH.
    + by rewrite !filter_cons_False by done.
Qed.

(** X10.  [restoreSnapshot] that finds a package, and [openProjectFile],
    put the loaded project in place: it becomes the active project and the
    one entry of the project list under its id (entries it had under that
    id are dropped), the entries under other ids stay, and neither stack is
    emptied, so the history recorded before the load is still there. *)
Theorem loading_puts_project_in_place :
  forall now s,
    (forall name' pkg,
       loadSnapshot name' = Some pkg ->
       replacedBy (project pkg) s (restoreSnapshot now name' s))
    /\ (forall file',
          replacedBy (project (loadProjectFromFile file')) s (openProjectFile now file' s)).
Proof.
  intros now s. split.
  - intros name' pkg Hpkg. unfold ProjectProvider.restoreSnapshot. rewrite Hpkg.
    unfold replacedBy. simpl. split_and!; try done.
    + apply projectsWithId_loaded.
    + intros i Hi. by apply projectsWithId_others.
  - intros file'. unfold replacedBy, ProjectProvider.openProjectFile. simpl.
    split_and!; try done.
    + apply projectsWithId_loaded.
    + intros i Hi. by apply projectsWithId_others.
Qed.

(** X11.  At start-up, [initializeFromLatestSnapshot] creates a new project
    only when the backend names no latest snapshot.  When it names one that
    [loadSnapshot] then does not find, nothing happens: no project is
    created and the store stays as it is.  When the snapshot is found, its
    project becomes the active one. *)
Theorem initialize_from_latest_snapshot :
  forall now s,
    let s' := initializeFromLatestSnapshot now s in
    (getLatestSnapshot = None ->
     currentProject s' = Some (createEmptyProject now None)
     /\ projects s' = projects s ++ [createEmptyProject now None]
     /\ undoStack s' = [] /\ redoStack s' = [])
    /\ (forall latest,
          getLatestSnapshot = Some latest -> loadSnapshot latest = None -> s' = s)
    /\ (forall latest pkg,
          getLatestSnapshot = Some latest -> loadSnapshot latest = Some pkg ->
          replacedBy (project pkg) s s').
Proof.
  intros now s s'. unfold s', ProjectProvider.initializeFromLatestSnapshot. split_and!.
  - by intros ->.
  - intros latest -> Hnone. unfold ProjectProvider.restoreSnapshot. by rewrite Hnone.
  - intros latest pkg -> Hpkg. unfold ProjectProvider.restoreSnapshot. rewrite Hpkg.
    unfold replacedBy. simpl. split_and!; try done.
    + apply projectsWithId_loaded.
    + intros i Hi. by apply projectsWithId_others.
Qed.

(** ** Deleting a project *)

(** X12.  [deleteProject] drops every entry under the id.  Unless it
    deletes the active project with no other project left, the list then
    holds no entry under the id, the entries under other ids keep their
    order, the save state is untouched, and a store with an active project
    still has one, which is not under the deleted id and is the same one
    when it was not the deleted one.  In the remaining case the list is the
    one new project of [createProject], which is active. *)
Theorem deleteProject_drops_the_id :
  forall now projectId s,
    let s' := deleteProject now projectId s in
    (~ deletesOnlyProject projectId s ->
     projects s' = filter (fun p => project_id p <> projectId) (projects s)
     /\ projectsWithId projectId (projects s') = []
     /\ projectState s' = projectState s
     /\ backend s' = backend s
     /\ (currentProject s = None -> currentProject s' = None)
     /\ (forall cp, currentProject s = Some cp ->
           exists cp', currentProject s' = Some cp'
                       /\ project_id cp' <> projectId
                       /\ (project_id cp <> projectId -> cp' = cp)))
    /\ (deletesOnlyProject projectId s ->
        projects s' = [createEmptyProject now None]
        /\ currentProject s' = Some (createEmptyProject now None)
        /\ projectState s' = transition now (projectState s) initialize).
Proof.
  intros now projectId s s'.
  assert (Hgone : projectsWithId projectId
                    (filter (fun p => project_id p <> projectId) (projects s)) = []).
  { unfold projectsWithId. induction (projects s) as [|p ps IH]; [done|].
    destruct (decide (project_id p = projectId)) as [Hp|Hp].
    - by rewrite (filter_cons_False _ p ps) by (by intros ?).
    - rewrite (filter_cons_True _ p ps) by done. by rewrite filter_cons_False. }
  unfold s', ProjectProvider.deleteProject, deletesOnlyProject. split.
  - intros Hnot. destruct (currentProject s) as [cp|] eqn:Hcp.
    + destruct (decide (project_id cp = projectId)) as [Hid|Hid].
      * destruct (filter _ (projects s)) as [|r rest] eqn:Hrest.
        { exfalso. apply Hnot. by exists cp. }
        simpl. rewrite Hrest. split_and!; try done.
        intros cp0 [= <-]. exists r. split; [done|]. split; [|done].
        assert (Hr : r ∈ filter (fun p => project_id p <> projectId) (projects s))
          by (rewrite Hrest; by left).
        by apply list_elem_of_filter in Hr as [? _].
      * simpl. split_and!; try done. intros cp0 Hcp0. exists cp.
        rewrite Hcp. by injection Hcp0 as <-.
    + simpl. by split_and!.
  - intros (cp & Hcp & Hid & Hnil). rewrite Hcp, decide_True by done.
    rewrite Hnil. simpl. by rewrite Hnil.
Qed.

(** ** Saving, exporting and the history *)

(** X13.  After [saveProject] with a project active, and after
    [createProject], [undo] and [redo] do nothing: what was done before can
    no longer be undone.  [exportProjectFile] takes the same [save]
    transition and keeps both stacks, the project list and the active
    project as they are. *)
Theorem save_closes_the_history_export_does_not :
  forall now now' s,
    (is_Some (currentProject s) ->
     undo now' (saveProject now s) = saveProject now s
     /\ redo now' (saveProject now s) = saveProject now s)
    /\ (forall name',
          undo now' (createProject now name' s) = createProject now name' s
          /\ redo now' (createProject now name' s) = createProject now name' s)
    /\ (forall fileName',
          let s' := fst (exportProjectFile now fileName' s) in
          undoStack s' = undoStack s /\ redoStack s' = redoStack s
          /\ projects s' = projects s /\ currentProject s' = currentProject s
          /\ backend s' = backend s
          /\ (is_Some (currentProject s) ->
              projectState s' = transition now (projectState s) save)).
Proof.
  intros now now' s. split_and!.
  - intros [cp Hcp].
    assert (Hu : undoStack (saveProject now s) = []
                 /\ redoStack (saveProject now s) = [])
      by (unfold ProjectProvider.saveProject; by rewrite Hcp).
    destruct Hu as [Hundo Hredo].
    split; [by apply undo_empty | by apply redo_empty].
  - intros name'. split; [by apply undo_empty | by apply redo_empty].
  - intros fileName'. unfold ProjectProvider.exportProjectFile.
    destruct (currentProject s) as [cp|] eqn:Hcp; simpl; split_and!; try done;
      try (by intros [? ?]).
Qed.

(** ** Updating what is not there *)

(** X14.  With a project active, [updateTask] and [updateResource] with an
    entity whose id no entity of the collection carries record no entry,
    keep both stacks (the redo stack is not emptied) and both collections,
    and still take the [edit] transition. *)
Theorem update_missing_takes_edit :
  forall now s cp,
    currentProject s = Some cp ->
    (forall updatedTask,
       task_id updatedTask ∉ ids (tasks cp) ->
       let s' := updateTask now updatedTask s in
       undoStack s' = undoStack s /\ redoStack s' = redoStack s
       /\ activeTasks s' = tasks cp /\ activeResources s' = resources cp
       /\ projectState s' = transition now (projectState s) edit)
    /\ (forall updatedResource,
          resource_id updatedResource ∉ ids (resources cp) ->
          let s' := updateResource now updatedResource s in
          undoStack s' = undoStack s /\ redoStack s' = redoStack s
          /\ activeTasks s' = tasks cp /\ activeResources s' = resources cp
          /\ projectState s' = transition now (projectState s) edit).
Proof.
  intros now s cp Hcp. split.
  - intros t Hno s'. unfold s'.
    change (updateTask now t s) with (step now (UpdateTask t) s).
    rewrite (step_active _ _ _ _ _ _ Hcp). simpl.
    apply findById_None in Hno. rewrite Hno. simpl.
    apply findById_None in Hno. unfold activeTasks, activeResources. simpl.
    by rewrite replaceById_absent.
  - intros r Hno s'. unfold s'.
    change (updateResource now r s) with (step now (UpdateResource r) s).
    rewrite (step_active _ _ _ _ _ _ Hcp). simpl.
    apply findById_None in Hno. rewrite Hno. simpl.
    apply findById_None in Hno. unfold activeTasks, activeResources. simpl.
    by rewrite replaceById_absent.
Qed.

(** ** Ids *)

Lemma append_NoDup_iff {A} `{HasId A} (xs : list A) (y : A) :
  NoDup (ids xs) -> (NoDup (ids (append xs y)) <-> getId y ∉ ids xs).
Proof.
  intros Hnd. split; [|by apply append_NoDup].
  unfold ids, append. rewrite fmap_app. intros Happ Hin.
  apply NoDup_app in Happ as (_ & Hdisj & _). apply (Hdisj _ Hin). by left.
Qed.

(** X15.  With pairwise different ids in the active project, a mutator call
    leaves them pairwise different exactly when it is not an addition under
    an id that the collection already has: updates and deletions always
    keep the ids apart, and [addTask] and [addResource] accept an id that
    is taken and leave two entities under it. *)
Theorem ids_stay_apart_iff_additions_are_fresh :
  forall now op s cp,
    currentProject s = Some cp ->
    uniqueIds cp ->
    ((exists cp', currentProject (step now op s) = Some cp' /\ uniqueIds cp')
     <-> addsFreshId op cp = true).
Proof.
  intros now op s cp Hcp [Ht Hr].
  rewrite (step_active _ _ _ _ _ _ Hcp).
  assert (Hiff : uniqueIds (editedProject op cp) <-> addsFreshId op cp = true).
  { unfold uniqueIds. destruct op as [t|t|i|r|r|i]; simpl.
    - rewrite bool_decide_eq_true, <- (append_NoDup_iff (tasks cp) t Ht).
      split; [by intros [? _] | by intros ?].
    - rewrite replaceById_ids by done. split; [done | by intros _].
    - split; [done|]. intros _. split; [by apply removeById_NoDup | done].
    - rewrite bool_decide_eq_true, <- (append_NoDup_iff (resources cp) r Hr).
      split; [by intros [_ ?] | by intros ?].
    - rewrite replaceById_ids by done. split; [done | by intros _].
    - split; [done|]. intros _. split; [done | by apply removeById_NoDup]. }
  rewrite <- Hiff. split.
  - by intros (cp' & [= <-] & Huniq).
  - intros Huniq. by eexists.
Qed.

(** ** The project list *)

(** X16.  Apart from creating, deleting and loading a project, nothing
    changes which projects the list holds: the ids of its entries, in
    order, stay the same through every other callback. *)
Theorem edits_keep_the_project_list :
  forall now a s,
    keepsProjectList a = true ->
    project_id <$> projects (perform now a s) = project_id <$> projects s.
Proof.
  intros now a s Ha.
  assert (Hup : forall up s0,
             project_id <$> projects (updateProject now up s0) = project_id <$> projects s0).
  { intros up s0. rewrite updateProject_projects, <- list_fmap_compose.
    apply list_fmap_ext. intros _ p _. simpl. by case_decide. }
  destruct (currentProject s) as [cp|] eqn:Hcp.
  - destruct (touchesLedger a) eqn:Hledger.
    { destruct (ledger_active now a s cp Hcp Hledger) as (up & -> & _). apply Hup. }
    destruct a; try discriminate Hledger; try discriminate Ha; simpl.
    + rewrite (step_active _ _ _ _ _ _ Hcp), Hup. by destruct (recorded op cp).
    + apply Hup.
    + done.
    + done.
    + unfold ProjectProvider.saveProject. by rewrite Hcp.
    + unfold ProjectProvider.exportProjectFile. by rewrite Hcp.
    + done.
    + destruct (lastItem (undoStack s)) as [item|] eqn:Hlast.
      * by rewrite (undo_active _ _ _ _ _ _ Hcp Hlast), Hup.
      * unfold ProjectProvider.undo. by rewrite Hlast.
    + destruct (lastItem (redoStack s)) as [item|] eqn:Hlast.
      * by rewrite (redo_active _ _ _ _ _ _ Hcp Hlast), Hup.
      * unfold ProjectProvider.redo. by rewrite Hlast.
    + unfold autosaveTick. rewrite Hcp.
      by destruct (autosaveTimer (projectState s)), (hasUnsavedChanges (projectState s)).
  - destruct (needsActiveProject a) eqn:Hneeds.
    + by rewrite (perform_inactive now a s Hcp Hneeds).
    + destruct a; try discriminate Hneeds; try discriminate Ha; simpl; try done.
      apply Hup.
Qed.

End ProviderFacts.

(** ** The earlier revision *)

(** X17.  In the earlier revision neither an edit nor a save writes
    [isUntitled], [openedFrom] or [autosaveTimer]: after [createProject],
    which sets [isUntitled], any sequence of edits and saves leaves the
    project marked as untitled and opened by hand, also when its state is
    SAVED. *)
Theorem Inline_save_keeps_untitled :
  forall calculateProjectProgress createEmptyProject now name' cs s,
    let created := Inline.createProject createEmptyProject now name' s in
    let s' := Inline.changes calculateProjectProgress cs created in
    isUntitled (projectState s') = true
    /\ openedFrom (projectState s') = Some manual
    /\ autosaveTimer (projectState s') = active
    /\ (forall s0,
          isUntitled (projectState (Inline.changes calculateProjectProgress cs s0))
          = isUntitled (projectState s0)).
Proof.
  intros calculateProjectProgress createEmptyProject now name' cs s.
  assert (Hkeep : forall s0,
             let s1 := Inline.changes calculateProjectProgress cs s0 in
             isUntitled (projectState s1) = isUntitled (projectState s0)
             /\ openedFrom (projectState s1) = openedFrom (projectState s0)
             /\ autosaveTimer (projectState s1) = autosaveTimer (projectState s0)).
  { induction cs as [|[t c] cs IH]; intros s0; simpl; [done|].
    destruct (IH (Inline.change calculateProjectProgress t c s0)) as (-> & -> & ->).
    destruct c; simpl; [done|].
    unfold Inline.saveProject. by destruct (currentProject s0). }
  intros created s'. subst s'. destruct (Hkeep created) as (Hu & Ho & Ha).
  cbv zeta in Hu, Ho, Ha.
  split_and!; [by rewrite Hu | by rewrite Ho | by rewrite Ha | apply Hkeep].
Qed.

(** ** The further properties at work *)

Local Abbreviation snaps := Sample.snapshots.
Local Abbreviation describe := Sample.descriptor.
Local Abbreviation reader := Sample.reader.
Local Abbreviation act :=
  (perform calc fresh machine snaps describe reader (Some "nightly")).
Local Abbreviation acts :=
  (performAll calc fresh machine snaps describe reader (Some "nightly")).

Lemma Sample_P2_uniqueIds : uniqueIds Sample.P2.
Proof. split; apply (bool_decide_unpack _); by vm_compute. Qed.

Lemma no_active_project_nothing_happens_witness :
  currentProject Sample.idle = None
  /\ act "10:00" Undo Sample.idle = Sample.idle
  /\ act "10:00" (Mutate (AddTask Sample.T1)) Sample.idle = Sample.idle
  /\ exportProjectFile machine describe "10:00" "demo.mpproj" Sample.idle
     = (Sample.idle, []).
Proof.
  pose proof (no_active_project_nothing_happens calc fresh machine snaps describe reader
                (Some "nightly") "10:00" Sample.idle eq_refl) as [Hact Hexport].
  split; [reflexivity|].
  split; [exact (Hact Undo eq_refl)|].
  split; [exact (Hact (Mutate (AddTask Sample.T1)) eq_refl)|].
  exact (Hexport "demo.mpproj").
Defined.

Lemma active_project_stays_listed_witness :
  currentInProjects Sample.store
  /\ knowsProjects calc fresh machine snaps describe reader (Some "nightly")
       Sample.tour Sample.store
  /\ currentInProjects (acts Sample.tour Sample.store).
Proof.
  assert (Hstart : currentInProjects Sample.store).
  { intros cp Hcp. injection Hcp as <-. left. }
  assert (Hknows : knowsProjects calc fresh machine snaps describe reader (Some "nightly")
                     Sample.tour Sample.store).
  { vm_compute. repeat split. right. left. }
  split; [exact Hstart|]. split; [exact Hknows|].
  exact (active_project_stays_listed calc fresh machine snaps describe reader
           (Some "nightly") Sample.tour Sample.store Hstart Hknows).
Defined.

Lemma history_stays_bounded_witness :
  historyBounded Sample.crowded
  /\ length (undoStack Sample.crowded) = 50
  /\ length (undoStack (acts Sample.tour Sample.crowded)) <= 50.
Proof.
  assert (Hb : historyBounded Sample.crowded) by (vm_compute; lia).
  split; [exact Hb|]. split; [reflexivity|].
  exact (proj1 (proj2 (history_stays_bounded calc fresh machine snaps describe reader
                         (Some "nightly") Sample.tour Sample.crowded Hb))).
Defined.

Lemma pushUndo_never_evicts_the_oldest_witness :
  49 <= length (undoStack Sample.crowded)
  /\ take 49 (undoStack (pushAll [Sample.numbered 51; Sample.numbered 52] Sample.crowded))
     = take 49 (undoStack Sample.crowded)
  /\ undoStack (pushAll [Sample.numbered 51; Sample.numbered 52] Sample.crowded)
     = take 49 (undoStack Sample.crowded) ++ [Sample.numbered 52].
Proof.
  assert (Hlen : 49 <= length (undoStack Sample.crowded)) by (vm_compute; lia).
  destruct (pushUndo_never_evicts_the_oldest
              [Sample.numbered 51; Sample.numbered 52] Sample.crowded Hlen) as [Hold Htop].
  split; [exact Hlen|]. split; [exact Hold|].
  exact (Htop (Sample.numbered 52) eq_refl).
Defined.

Lemma undo_reverts_last_edit_witness :
  let s' := undo calc machine "10:01"
                 (step calc machine "10:00" (DeleteTask "t1") Sample.busy) in
  currentProject Sample.busy = Some Sample.P2
  /\ uniqueIds Sample.P2
  /\ addsFreshId (DeleteTask "t1") Sample.P2 = true
  /\ recorded (DeleteTask "t1") Sample.P2 = Some (delete_task "t1" Sample.T1)
  /\ activeTasks s' ≡ₚ [Sample.T1; Sample.T2]
  /\ activeTasks s' = [Sample.T2; Sample.T1]
  /\ redoStack s' = [delete_task "t1" Sample.T1].
Proof.
  pose proof (undo_reverts_last_edit calc machine "10:00" "10:01" (DeleteTask "t1")
                Sample.busy Sample.P2 (delete_task "t1" Sample.T1)
                eq_refl Sample_P2_uniqueIds eq_refl eq_refl)
    as (_ & Htasks & _ & _ & Hredo).
  split; [reflexivity|]. split; [exact Sample_P2_uniqueIds|].
  split; [reflexivity|]. split; [reflexivity|].
  split; [exact Htasks|]. split; [reflexivity|]. exact Hredo.
Defined.

Lemma undo_redo_restore_the_stacks_witness :
  currentProject Sample.busy = Some Sample.P2
  /\ undoStack Sample.busy <> []
  /\ redoStack Sample.busy <> []
  /\ undoStack (redo calc machine "10:01" (undo calc machine "10:00" Sample.busy))
     = undoStack Sample.busy
  /\ redoStack (undo calc machine "10:01" (redo calc machine "10:00" Sample.busy))
     = redoStack Sample.busy.
Proof.
  assert (Hu : undoStack Sample.busy <> []) by discriminate.
  assert (Hr : redoStack Sample.busy <> []) by discriminate.
  pose proof (undo_redo_restore_the_stacks calc machine "10:00" "10:01"
                Sample.busy Sample.P2 eq_refl) as [Hundo Hredo].
  split; [reflexivity|]. split; [exact Hu|]. split; [exact Hr|].
  split; [exact (proj1 (Hundo Hu)) | exact (proj2 (Hredo Hr))].
Defined.

Lemma costs_and_risks_bypass_history_witness :
  let s' := act "10:00" (AddCost (mkCost "c2" [])) Sample.busy in
  currentProject Sample.busy = Some Sample.P2
  /\ touchesLedger (AddCost (mkCost "c2" [])) = true
  /\ undoStack s' = undoStack Sample.busy
  /\ redoStack s' = [add_task "t2" Sample.T2]
  /\ activeTasks s' = [Sample.T1; Sample.T2].
Proof.
  pose proof (costs_and_risks_bypass_history calc fresh machine snaps describe reader
                (Some "nightly") "10:00" (AddCost (mkCost "c2" [])) Sample.busy Sample.P2
                eq_refl eq_refl) as (Hundo & Hredo & Htasks & _).
  split; [reflexivity|]. split; [reflexivity|].
  split; [exact Hundo|]. split; [exact Hredo | exact Htasks].
Defined.

Lemma cost_and_risk_lists_witness :
  currentProject Sample.busy = Some Sample.P2
  /\ ("c2" ∉ ids (costs Sample.P2))
  /\ activeCosts (deleteCost calc machine "10:01" "c2"
                    (addCost calc machine "10:00" (mkCost "c2" []) Sample.busy))
     = [Sample.C1]
  /\ activeCosts (updateCost calc machine "10:00" (mkCost "c2" []) Sample.busy)
     = [Sample.C1].
Proof.
  assert (Hno : cost_id (mkCost "c2" []) ∉ ids (costs Sample.P2))
    by (apply (bool_decide_unpack _); by vm_compute).
  pose proof (cost_and_risk_lists calc machine "10:00" "10:01" Sample.busy Sample.P2
                eq_refl) as (Hadd & _ & Hmiss & _).
  split; [reflexivity|]. split; [exact Hno|].
  split; [exact (Hadd (mkCost "c2" []) Hno) | exact (proj1 (Hmiss (mkCost "c2" []) Hno))].
Defined.

Lemma loading_puts_project_in_place_witness :
  snaps "nightly" = Some Sample.package
  /\ replacedBy Sample.Q Sample.busy
       (restoreSnapshot machine snaps "10:00" "nightly" Sample.busy)
  /\ undoStack (restoreSnapshot machine snaps "10:00" "nightly" Sample.busy)
     = [add_task "t1" Sample.T1].
Proof.
  pose proof (proj1 (loading_puts_project_in_place machine snaps reader "10:00" Sample.busy)
                "nightly" Sample.package eq_refl) as Hplaced.
  split; [reflexivity|]. split; [exact Hplaced|].
  exact (proj1 (proj2 (proj2 (proj2 Hplaced)))).
Defined.

Lemma initialize_from_latest_snapshot_witness :
  snaps "weekly" = None
  /\ initializeFromLatestSnapshot fresh machine snaps (Some "weekly") "10:00" Sample.busy
     = Sample.busy
  /\ currentProject
       (initializeFromLatestSnapshot fresh machine snaps None "10:00" Sample.busy)
     = Some (fresh "10:00" None).
Proof.
  split; [reflexivity|]. split.
  - exact (proj1 (proj2 (initialize_from_latest_snapshot fresh machine snaps
                           (Some "weekly") "10:00" Sample.busy))
             "weekly" eq_refl eq_refl).
  - exact (proj1 (proj1 (initialize_from_latest_snapshot fresh machine snaps
                           None "10:00" Sample.busy) eq_refl)).
Defined.

Lemma deleteProject_drops_the_id_witness :
  let s' := deleteProject fresh machine "10:00" "p" Sample.busy in
  ~ deletesOnlyProject "p" Sample.busy
  /\ deletesOnlyProject "p" Sample.store
  /\ projectsWithId "p" (projects s') = []
  /\ projectState s' = projectState Sample.busy
  /\ projects (deleteProject fresh machine "10:00" "p" Sample.store)
     = [fresh "10:00" None].
Proof.
  assert (Hnot : ~ deletesOnlyProject "p" Sample.busy).
  { intros (cp & _ & _ & Hnil). vm_compute in Hnil. discriminate Hnil. }
  assert (Honly : deletesOnlyProject "p" Sample.store).
  { exists Sample.P. split; [reflexivity|]. split; reflexivity. }
  pose proof (proj1 (deleteProject_drops_the_id fresh machine "10:00" "p" Sample.busy) Hnot)
    as (_ & Hgone & Hstate & _).
  split; [exact Hnot|]. split; [exact Honly|].
  split; [exact Hgone|]. split; [exact Hstate|].
  exact (proj1 (proj2 (deleteProject_drops_the_id fresh machine "10:00" "p" Sample.store)
                  Honly)).
Defined.

Lemma save_closes_the_history_export_does_not_witness :
  is_Some (currentProject Sample.busy)
  /\ undo calc machine "10:01" (saveProject machine "10:00" Sample.busy)
     = saveProject machine "10:00" Sample.busy
  /\ undoStack (fst (exportProjectFile machine describe "10:00" "demo.mpproj" Sample.busy))
     = [add_task "t1" Sample.T1]
  /\ projectState (fst (exportProjectFile machine describe "10:00" "demo.mpproj" Sample.busy))
     = machine "10:00" (projectState Sample.busy) save.
Proof.
  assert (Hactive : is_Some (currentProject Sample.busy)) by (by exists Sample.P2).
  pose proof (save_closes_the_history_export_does_not calc fresh machine describe
                "10:00" "10:01" Sample.busy) as (Hsave & _ & Hexport).
  destruct (Hexport "demo.mpproj") as (Hundo & _ & _ & _ & _ & Hstate).
  split; [exact Hactive|]. split; [exact (proj1 (Hsave Hactive))|].
  split; [exact Hundo | exact (Hstate Hactive)].
Defined.

Lemma update_missing_takes_edit_witness :
  let s' := updateTask calc machine "10:00" (mkTask "t9" []) Sample.busy in
  currentProject Sample.busy = Some Sample.P2
  /\ ("t9" ∉ ids (tasks Sample.P2))
  /\ undoStack s' = undoStack Sample.busy
  /\ redoStack s' = [add_task "t2" Sample.T2]
  /\ activeTasks s' = [Sample.T1; Sample.T2]
  /\ projectState s' = machine "10:00" (projectState Sample.busy) edit.
Proof.
  assert (Hno : task_id (mkTask "t9" []) ∉ ids (tasks Sample.P2))
    by (apply (bool_decide_unpack _); by vm_compute).
  pose proof (proj1 (update_missing_takes_edit calc machine "10:00" Sample.busy Sample.P2
                       eq_refl) (mkTask "t9" []) Hno)
    as (Hundo & Hredo & Htasks & _ & Hstate).
  split; [reflexivity|]. split; [exact Hno|]. split; [exact Hundo|].
  split; [exact Hredo|]. split; [exact Htasks | exact Hstate].
Defined.

Lemma ids_stay_apart_iff_additions_are_fresh_witness :
  currentProject Sample.busy = Some Sample.P2
  /\ uniqueIds Sample.P2
  /\ addsFreshId (AddTask Sample.T1') Sample.P2 = false
  /\ ~ (exists cp', currentProject (step calc machine "10:00" (AddTask Sample.T1') Sample.busy)
                    = Some cp' /\ uniqueIds cp')
  /\ (exists cp', currentProject (step calc machine "10:00" (DeleteTask "t1") Sample.busy)
                  = Some cp' /\ uniqueIds cp').
Proof.
  pose proof (ids_stay_apart_iff_additions_are_fresh calc machine "10:00"
                (AddTask Sample.T1') Sample.busy Sample.P2 eq_refl Sample_P2_uniqueIds)
    as Hadd.
  pose proof (ids_stay_apart_iff_additions_are_fresh calc machine "10:00"
                (DeleteTask "t1") Sample.busy Sample.P2 eq_refl Sample_P2_uniqueIds)
    as Hdel.
  split; [reflexivity|]. split; [exact Sample_P2_uniqueIds|]. split; [reflexivity|].
  split.
  - intros Huniq. apply (proj1 Hadd) in Huniq. discriminate Huniq.
  - exact (proj2 Hdel eq_refl).
Defined.

Lemma edits_keep_the_project_list_witness :
  keepsProjectList Undo = true
  /\ project_id <$> projects (act "10:00" Undo Sample.busy) = ["p"; "q"].
Proof.
  split; [reflexivity|].
  exact (edits_keep_the_project_list calc fresh machine snaps describe reader
           (Some "nightly") "10:00" Undo Sample.busy eq_refl).
Defined.
